(** * Productivity coach backend: scoring, archetype and plan synthesis

    A shallow embedding of [backend/server.py]: the questionnaire model,
    [calculate_profile_axes], [determine_archetype] and
    [generate_plan_template], followed by the properties proved about them.

    Conventions of the embedding.
    - A Python [str] is a Rocq [string], one [ascii] per character, so the
      texts covered are those whose code points are below 256.  On that range
      [Text.lower], [Text.isspace], [Text.split] and [Text.strip] are
      Python's [str.lower], [str.isspace], [str.split()] and [str.strip()].
    - A Python [int] is a [Z].
    - A Python [float] is an exact rational [Q]: rounding, infinities and NaN
      are not modelled.  The one float operation of the code that can raise,
      the true division of an [int], is modelled with its [OverflowError].
      [Qmin]/[Qmax] and [Z.min]/[Z.max] return their first argument on ties,
      as Python's two-argument [min]/[max] do.
    - A call that can raise returns a [result].
    - The constant [daily_template] holds two arrows (U+2192), written in
      their UTF-8 bytes; no function looks inside it. *)

From Stdlib Require Import ZArith QArith Qminmax List String Ascii Bool Lia.
From Stdlib Require Import DecimalString Permutation Lqa Qabs.
Import ListNotations.

Open Scope string_scope.
Open Scope Z_scope.

(** ** Exceptions *)

Inductive PyError : Type :=
| IndexError
| ValidationError
| OverflowError.

Inductive result (A : Type) : Type :=
| Ok (a : A)
| Raised (e : PyError).

Arguments Ok {A} a.
Arguments Raised {A} e.

(** ** Text primitives *)

Module Text.

(** [str.isspace] on one character below 256: TAB..CR, FS..US, space,
    NEL and NBSP. *)
Definition isspace (c : ascii) : bool :=
  let n := N_of_ascii c in
  ((9 <=? n) && (n <=? 13) || (28 <=? n) && (n <=? 32)
   || (n =? 133) || (n =? 160))%N.

(** [str.lower] on one character below 256: A..Z and the Latin-1 capitals
    (all of 192..222 but the multiplication sign 215) move up by 32. *)
Definition lower_char (c : ascii) : ascii :=
  let n := N_of_ascii c in
  (if (65 <=? n) && (n <=? 90) || (192 <=? n) && (n <=? 222) && negb (n =? 215)
   then ascii_of_N (n + 32) else c)%N.

Fixpoint lower (s : string) : string :=
  match s with
  | EmptyString => EmptyString
  | String c s' => String (lower_char c) (lower s')
  end.

(** [needle in hay]. *)
Fixpoint contains (needle hay : string) : bool :=
  prefix needle hay ||
  match hay with
  | EmptyString => false
  | String _ hay' => contains needle hay'
  end.

Definition starts_word (s : string) : bool :=
  match s with
  | EmptyString => false
  | String c _ => negb (isspace c)
  end.

(** [s.split()]: the maximal runs of non-space characters, in order. *)
Fixpoint split (s : string) : list string :=
  match s with
  | EmptyString => []
  | String c s' =>
      if isspace c then split s'
      else if starts_word s' then
             match split s' with
             | w :: ws => String c w :: ws
             | [] => [String c EmptyString]
             end
           else String c EmptyString :: split s'
  end.

Fixpoint lstrip (s : string) : string :=
  match s with
  | EmptyString => EmptyString
  | String c s' => if isspace c then lstrip s' else s
  end.

Fixpoint rstrip (s : string) : string :=
  match s with
  | EmptyString => EmptyString
  | String c s' =>
      match rstrip s' with
      | EmptyString => if isspace c then EmptyString else String c EmptyString
      | r => String c r
      end
  end.

(** [s.strip()]. *)
Definition strip (s : string) : string := rstrip (lstrip s).

(** [sep.join(parts)]. *)
Fixpoint join (sep : string) (parts : list string) : string :=
  match parts with
  | [] => EmptyString
  | [p] => p
  | p :: rest => p ++ sep ++ join sep rest
  end.

(** [len(s)]. *)
Definition len (s : string) : Z := Z.of_nat (String.length s).

(** Truth value of a [str]. *)
Definition truthy (s : string) : bool :=
  match s with
  | EmptyString => false
  | String _ _ => true
  end.

(** Every character is a space (so also the empty text). *)
Fixpoint blank (s : string) : bool :=
  match s with
  | EmptyString => true
  | String c s' => isspace c && blank s'
  end.

(** The characters of [w] all differ from [c]. *)
Fixpoint avoids (c : ascii) (w : string) : bool :=
  match w with
  | EmptyString => true
  | String x w' => negb (Ascii.eqb x c) && avoids c w'
  end.

(** [" ".join([t] * n)]. *)
Definition repeated (t : string) (n : nat) : string := join " " (repeat t n).

(** [str(n)] for an [int]. *)
Definition of_Z (n : Z) : string := NilZero.string_of_int (Z.to_int n).

End Text.

(** ** Questionnaire model *)

Inductive ChronotypeChoice : Type :=
| EARLY_MORNING
| LATE_MORNING
| AFTERNOON
| EVENING
| NIGHT.

Inductive SetbackReaction : Type :=
| GIVE_UP
| TRY_AGAIN_SAME
| ADJUST_APPROACH
| LEARN_ITERATE.

Inductive HabitCount : Type :=
| ZERO
| ONE_TO_TWO
| THREE_TO_FOUR
| FIVE_PLUS.

Record QuestionnaireResponse : Type := mkQuestionnaire {
  energizing_activities : string;
  passionate_problems : string;
  skills : list string;
  weekday_hours : Q;
  weekend_hours : Q;
  chronotype : ChronotypeChoice;
  morning_routine : string;
  morning_routine_duration : option Z;
  habit_count : HabitCount;
  setback_reaction : SetbackReaction;
  outcome_1 : string;
  outcome_2 : string;
  outcome_3 : string;
  key_habit_change : string;
  distractions : list string;
  commitment_level : Z
}.

Record ProfileAxes : Type := mkAxes {
  purpose_clarity : Q;
  energy_chronotype : Q;
  focus_capacity : Q;
  habit_foundation : Q;
  mindset : Q;
  skill_fit : Q
}.

Inductive Archetype : Type :=
| PURPOSE_DRIVEN_HIGH_ENERGY
| EXPLORATORY_MODERATE
| LOW_ENERGY_WANTS_CHANGE.

(** [archetype.value]. *)
Definition Archetype_value (a : Archetype) : string :=
  match a with
  | PURPOSE_DRIVEN_HIGH_ENERGY => "Purpose-driven + High Energy + High Focus"
  | EXPLORATORY_MODERATE => "Exploratory + Moderate Energy + Moderate Habit"
  | LOW_ENERGY_WANTS_CHANGE => "Low Energy / Low Habit + Wants Change"
  end.

(** [Field(ge=0, le=100)]. *)
Definition in_unit_range (x : Q) : bool :=
  Qle_bool 0 x && Qle_bool x 100.

(** The [ProfileAxes(...)] constructor call: every field is checked against
    its [Field(ge=0, le=100)] bound and the call raises when one fails. *)
Definition ProfileAxes_new (pc ec fc hf ms sf : Q) : result ProfileAxes :=
  if in_unit_range pc && in_unit_range ec && in_unit_range fc
     && in_unit_range hf && in_unit_range ms && in_unit_range sf
  then Ok (mkAxes pc ec fc hf ms sf)
  else Raised ValidationError.

(** ** Questionnaires that differ in one answer *)

Definition with_passionate_problems (q : QuestionnaireResponse) (t : string)
  : QuestionnaireResponse :=
  mkQuestionnaire (energizing_activities q) t (skills q) (weekday_hours q)
    (weekend_hours q) (chronotype q) (morning_routine q)
    (morning_routine_duration q) (habit_count q) (setback_reaction q)
    (outcome_1 q) (outcome_2 q) (outcome_3 q) (key_habit_change q)
    (distractions q) (commitment_level q).

Definition with_energizing_activities (q : QuestionnaireResponse) (t : string)
  : QuestionnaireResponse :=
  mkQuestionnaire t (passionate_problems q) (skills q) (weekday_hours q)
    (weekend_hours q) (chronotype q) (morning_routine q)
    (morning_routine_duration q) (habit_count q) (setback_reaction q)
    (outcome_1 q) (outcome_2 q) (outcome_3 q) (key_habit_change q)
    (distractions q) (commitment_level q).

Definition with_key_habit_change (q : QuestionnaireResponse) (t : string)
  : QuestionnaireResponse :=
  mkQuestionnaire (energizing_activities q) (passionate_problems q) (skills q)
    (weekday_hours q) (weekend_hours q) (chronotype q) (morning_routine q)
    (morning_routine_duration q) (habit_count q) (setback_reaction q)
    (outcome_1 q) (outcome_2 q) (outcome_3 q) t
    (distractions q) (commitment_level q).

Definition with_skills (q : QuestionnaireResponse) (l : list string)
  : QuestionnaireResponse :=
  mkQuestionnaire (energizing_activities q) (passionate_problems q) l
    (weekday_hours q) (weekend_hours q) (chronotype q) (morning_routine q)
    (morning_routine_duration q) (habit_count q) (setback_reaction q)
    (outcome_1 q) (outcome_2 q) (outcome_3 q) (key_habit_change q)
    (distractions q) (commitment_level q).

(** ** Scoring logic: [calculate_profile_axes] *)

Module Scoring.

Import Text.

(** [sum(...)] over a list of [int]s. *)
Definition sum (l : list Z) : Z := fold_left Z.add l 0.

Section Axes.

Variable questionnaire : QuestionnaireResponse.

(** *** Q2 + Q9 -> purpose clarity *)

Definition purpose_keywords : list string :=
  ["create"; "build"; "help"; "solve"; "improve"; "teach"; "mentor"; "impact"].

Definition q2_lower : string := lower (passionate_problems questionnaire).

Definition outcomes : list string :=
  [outcome_1 questionnaire; outcome_2 questionnaire; outcome_3 questionnaire].

Definition specific_outcomes : Z :=
  sum (map (fun _ => 1)
         (filter (fun outcome => Z.of_nat (List.length (split outcome)) >? 3)
            outcomes)).

Definition purpose_score : Z :=
  let purpose_score := 0 in
  let purpose_score :=
    purpose_score
    + sum (map (fun _ => 20)
             (filter (fun keyword => contains keyword q2_lower)
                purpose_keywords)) in
  purpose_score + specific_outcomes * 15.

Definition purpose_clarity_value : Z := Z.min 100 (Z.max 0 purpose_score).

(** *** Q5 + Q6 + Q4 -> energy and chronotype *)

Definition chronotype_scores (c : ChronotypeChoice) : Z :=
  match c with
  | EARLY_MORNING => 90
  | LATE_MORNING => 70
  | AFTERNOON => 60
  | EVENING => 50
  | NIGHT => 30
  end.

(** [a / b] on two [int]s, for [b] not zero: the quotient as a float,
    rounded to the nearest one.  The division raises [OverflowError] when
    that float would be beyond the largest one, that is when the quotient
    reaches [2^1024 - 2^970], half way between the largest float and
    [2^1024]. *)
Definition float_overflow_limit : Z := 2 ^ 1024 - 2 ^ 970.

Definition int_true_divide (a b : Z) : result Q :=
  let quotient := (inject_Z a / inject_Z b)%Q in
  if Qle_bool (inject_Z float_overflow_limit) (Qabs quotient)
  then Raised OverflowError
  else Ok quotient.

(** The guard [morning_routine.strip() and morning_routine_duration]: the
    trimmed text is not empty and the duration is present and not zero. *)
Definition energy_score : result Q :=
  let energy_score := inject_Z (chronotype_scores (chronotype questionnaire)) in
  match morning_routine_duration questionnaire with
  | Some d =>
      if truthy (strip (morning_routine questionnaire)) && negb (d =? 0)
      then match int_true_divide d 2 with
           | Ok half => Ok (energy_score + Qmin 20 half)%Q
           | Raised e => Raised e
           end
      else Ok energy_score
  | None => Ok energy_score
  end.

Definition avg_hours : Q :=
  ((weekday_hours questionnaire * 5 + weekend_hours questionnaire * 2) / 7)%Q.

Definition time_score : Q := Qmin 30 (avg_hours * 5).

(** [energy_chronotype], from an energy score. *)
Definition energy_chronotype_of (energy_score : Q) : Q :=
  Qmin 100 (energy_score + time_score).

(** *** Q1 + Q4 + Q11 -> focus capacity *)

Definition focus_keywords : list string :=
  ["coding"; "design"; "writing"; "research"; "analysis"; "problem"; "create"].

Definition q1_lower : string := lower (energizing_activities questionnaire).

Definition focus_base : Z :=
  sum (map (fun _ => 15)
         (filter (fun keyword => contains keyword q1_lower) focus_keywords)).

Definition hours_factor : Q := Qmin 40 (avg_hours * 8).

Definition distraction_penalty : Z :=
  Z.of_nat (List.length (distractions questionnaire)) * 5.

Definition focus_capacity_value : Q :=
  Qmin 100
    (Qmax 0 (inject_Z focus_base + hours_factor - inject_Z distraction_penalty)).

(** *** Q7 + Q10 -> habit foundation *)

Definition habit_scores (h : HabitCount) : Z :=
  match h with
  | ZERO => 10
  | ONE_TO_TWO => 35
  | THREE_TO_FOUR => 65
  | FIVE_PLUS => 90
  end.

Definition habit_base : Z :=
  let habit_base := habit_scores (habit_count questionnaire) in
  if len (strip (key_habit_change questionnaire)) >? 10
  then habit_base + 15
  else habit_base.

Definition habit_foundation_value : Z := Z.min 100 habit_base.

(** *** Q8 + Q12 -> mindset *)

Definition setback_scores (r : SetbackReaction) : Z :=
  match r with
  | GIVE_UP => 20
  | TRY_AGAIN_SAME => 40
  | ADJUST_APPROACH => 75
  | LEARN_ITERATE => 95
  end.

Definition mindset_base : Z := setback_scores (setback_reaction questionnaire).

Definition commitment_bonus : Z := commitment_level questionnaire * 5.

Definition mindset_value : Z := Z.min 100 (mindset_base + commitment_bonus).

(** *** Q3 + Q9 -> skill fit *)

Definition skill_count : Z := Z.of_nat (List.length (skills questionnaire)).

Definition skill_base : Z := Z.min 60 (skill_count * 20).

Definition outcomes_text : string := lower (join " " outcomes).

(** The test of the alignment loop: does any word of the skill occur in the
    outcomes text. *)
Definition skill_aligned (skill : string) : bool :=
  existsb (fun word => contains word outcomes_text) (split (lower skill)).

Definition skill_alignment : Z :=
  fold_left
    (fun skill_alignment skill =>
       if skill_aligned skill then skill_alignment + 15 else skill_alignment)
    (skills questionnaire) 0.

Definition skill_fit_value : Z := Z.min 100 (skill_base + skill_alignment).

(** *** The function *)

Definition calculate_profile_axes : result ProfileAxes :=
  match energy_score with
  | Ok energy_score =>
      ProfileAxes_new
        (inject_Z purpose_clarity_value)
        (energy_chronotype_of energy_score)
        focus_capacity_value
        (inject_Z habit_foundation_value)
        (inject_Z mindset_value)
        (inject_Z skill_fit_value)
  | Raised e => Raised e
  end.

(** *** The values when the division returns *)

(** The division of the routine bonus is carried out and overflows. *)
Definition routine_division_overflows : bool :=
  match morning_routine_duration questionnaire with
  | Some d =>
      truthy (strip (morning_routine questionnaire)) && negb (d =? 0)
      && Qle_bool (inject_Z float_overflow_limit) (Qabs (inject_Z d / 2))
  | None => false
  end.

(** The energy score with the division carried out exactly: what
    [energy_score] returns when it returns. *)
Definition energy_score_exact : Q :=
  let energy_score := inject_Z (chronotype_scores (chronotype questionnaire)) in
  match morning_routine_duration questionnaire with
  | Some d =>
      if truthy (strip (morning_routine questionnaire)) && negb (d =? 0)
      then (energy_score + Qmin 20 (inject_Z d / 2))%Q
      else energy_score
  | None => energy_score
  end.

Definition energy_chronotype_value : Q :=
  energy_chronotype_of energy_score_exact.

End Axes.

(** The axes as computed, before the range check of the constructor. *)
Definition computed_axes (q : QuestionnaireResponse) : ProfileAxes :=
  mkAxes (inject_Z (purpose_clarity_value q)) (energy_chronotype_value q)
    (focus_capacity_value q) (inject_Z (habit_foundation_value q))
    (inject_Z (mindset_value q)) (inject_Z (skill_fit_value q)).

End Scoring.

(** ** Archetype rule: [determine_archetype] *)

(** [x >= y] and [x < y] on floats. *)
Definition Qge_bool (x y : Q) : bool := Qle_bool y x.
Definition Qlt_bool (x y : Q) : bool := negb (Qle_bool y x).

Definition determine_archetype (axes : ProfileAxes) : Archetype :=
  if Qge_bool (purpose_clarity axes) 60
     && Qge_bool (energy_chronotype axes) 70
     && Qge_bool (focus_capacity axes) 60
  then PURPOSE_DRIVEN_HIGH_ENERGY
  else if Qlt_bool (habit_foundation axes) 40
          && Qlt_bool (energy_chronotype axes) 60
  then LOW_ENERGY_WANTS_CHANGE
  else EXPLORATORY_MODERATE.

(** ** Plan model *)

Record UserProfile : Type := mkProfile {
  id : string;
  questionnaire : QuestionnaireResponse;
  axes : ProfileAxes;
  archetype : Archetype;
  created_at : string
}.

Record HabitStack : Type := mkHabitStack {
  name : string;
  cue : string;
  action : string;
  reward : string;
  tracking : string
}.

Record TimeBlock : Type := mkTimeBlock {
  time : string;
  duration : Z;
  activity : string;
  type : string
}.

Record PlanTemplate : Type := mkPlan {
  yearly_goal : string;
  pillars : list string;
  monthly_template : string;
  weekly_template : string;
  daily_template : string;
  habit_stack : list HabitStack;
  suggested_time_blocks : list TimeBlock;
  justification : string
}.

(** ** Plan synthesis: [generate_plan_template] *)

Module Plan.

Import Text.

Definition bind {A B : Type} (r : result A) (k : A -> result B) : result B :=
  match r with
  | Ok a => k a
  | Raised e => Raised e
  end.

Notation "x <- r ;; k" := (bind r (fun x => k))
  (at level 61, r at next level, right associativity).

(** [l[i]] for a non-negative constant index. *)
Definition index {A : Type} (l : list A) (i : nat) : result A :=
  match nth_error l i with
  | Some x => Ok x
  | None => Raised IndexError
  end.

(** Nearest integer, ties to the even one. *)
Definition round_half_even (x : Q) : Z :=
  let n := Qnum x in
  let d := Z.pos (Qden x) in
  let fl := n / d in
  let twice_rest := 2 * (n mod d) in
  if twice_rest <? d then fl
  else if d <? twice_rest then fl + 1
  else if Z.even fl then fl else fl + 1.

(** The format [:.0f]. *)
Definition format_0f (x : Q) : string :=
  if Qlt_bool x 0
  then "-" ++ of_Z (round_half_even (- x)%Q)
  else of_Z (round_half_even x).

(** The three branches on the archetype: goal, pillars and time blocks. *)
Definition base_template (archetype : Archetype)
    (questionnaire : QuestionnaireResponse)
  : string * list string * list TimeBlock :=
  match archetype with
  | PURPOSE_DRIVEN_HIGH_ENERGY =>
      ("Achieve " ++ outcome_1 questionnaire
         ++ " through systematic skill building and focused execution",
       ["Master "
          ++ match skills questionnaire with
             | first :: _ => first
             | [] => "core skills"
             end
          ++ " through daily practice";
        "Build sustainable systems around " ++ key_habit_change questionnaire;
        "Maintain high-energy routines and deep work blocks"],
       [mkTimeBlock "05:30" 30 "Morning routine + planning" "routine";
        mkTimeBlock "06:00" 90 "Deep work block 1" "deep_work";
        mkTimeBlock "18:00" 60 "Skill practice" "practice"])
  | LOW_ENERGY_WANTS_CHANGE =>
      ("Build sustainable habits and gradually work toward "
         ++ outcome_1 questionnaire,
       ["Establish micro-habits and daily wins";
        "Address " ++ key_habit_change questionnaire ++ " with small steps";
        "Build energy and focus capacity over time"],
       [mkTimeBlock "07:00" 15 "Simple morning routine" "routine";
        mkTimeBlock "19:30" 30 "Micro-practice session" "practice"])
  | EXPLORATORY_MODERATE =>
      ("Explore and develop " ++ outcome_1 questionnaire
         ++ " through structured experimentation",
       ["Monthly skill experiments and learning sprints";
        "Develop " ++ key_habit_change questionnaire
          ++ " through habit stacking";
        "Build consistent review and iteration cycles"],
       [mkTimeBlock "06:30" 45 "Morning routine + planning" "routine";
        mkTimeBlock "19:00" 45 "Learning and practice" "practice"])
  end.

Definition generate_plan_template (profile : UserProfile)
  : result PlanTemplate :=
  let archetype := archetype profile in
  let questionnaire := questionnaire profile in
  let axes := axes profile in
  let '(yearly_goal, pillars, time_blocks) :=
    base_template archetype questionnaire in
  first_word <- index (split (key_habit_change questionnaire)) 0 ;;
  after <- (if Z.of_nat (List.length time_blocks) >? 1
            then block <- index time_blocks 1 ;; Ok (activity block)
            else Ok "dinner") ;;
  let habit_stack :=
    [mkHabitStack "Morning Startup" "After waking up"
       "Drink water + 5-minute planning" "Favorite morning beverage"
       "Daily checkbox";
     mkHabitStack (first_word ++ " Practice") ("After " ++ after)
       ("10 minutes of " ++ key_habit_change questionnaire)
       "Track progress + celebration" "Weekly streak counter"] in
  Ok {|
    yearly_goal := yearly_goal;
    pillars := pillars;
    monthly_template :=
      "Monthly theme focus with weekly milestones and habit tracking";
    weekly_template :=
      "Weekly planning with 2-3 focus sessions and daily micro-habits";
    daily_template :=
      "Morning routine → Deep work/practice → Evening reflection";
    habit_stack := habit_stack;
    suggested_time_blocks := time_blocks;
    justification :=
      Archetype_value archetype ++ " approach based on "
        ++ format_0f (purpose_clarity axes) ++ "% purpose clarity and "
        ++ format_0f (energy_chronotype axes) ++ "% energy score"
  |}.

End Plan.

(** ** The questionnaire route up to persistence *)

(** [submit_questionnaire] before the database insert: axes, then archetype,
    then the profile. *)
Definition build_profile (new_id now : string) (q : QuestionnaireResponse)
  : result UserProfile :=
  match Scoring.calculate_profile_axes q with
  | Ok a => Ok (mkProfile new_id q a (determine_archetype a) now)
  | Raised e => Raised e
  end.

(** ** The specification's reading of the scores

    Definitions written from the specification's sentences, to be compared
    with the ones of [Scoring]. *)

Module Spec.

Import Text.

(** A structurally valid questionnaire: hours are not negative, a routine
    duration that is present is not negative, the commitment level is between
    1 and 10. *)
Definition structurally_valid (q : QuestionnaireResponse) : Prop :=
  (0 <= weekday_hours q)%Q /\
  (0 <= weekend_hours q)%Q /\
  match morning_routine_duration q with
  | Some d => 0 <= d
  | None => True
  end /\
  1 <= commitment_level q <= 10.

(** [keyword] occurs in [text] as a substring, letter case ignored. *)
Definition occurs_ci (keyword text : string) : bool :=
  contains (lower keyword) (lower text).

(** The keywords of a list that occur in a text. *)
Definition matching (keywords : list string) (text : string) : list string :=
  filter (fun keyword => occurs_ci keyword text) keywords.














(** The number of words of a text. *)
Definition word_count (s : string) : Z := Z.of_nat (List.length (split s)).


(** The threshold sets of the two archetype rules. *)
Definition rule_1 (a : ProfileAxes) : Prop :=
  (60 <= purpose_clarity a /\ 70 <= energy_chronotype a
   /\ 60 <= focus_capacity a)%Q.

Definition rule_2 (a : ProfileAxes) : Prop :=
  (habit_foundation a < 40 /\ energy_chronotype a < 60)%Q.

(** Every field lies in the closed interval from 0 to 100. *)
Definition axes_in_range (a : ProfileAxes) : Prop :=
  (0 <= purpose_clarity a <= 100 /\ 0 <= energy_chronotype a <= 100
   /\ 0 <= focus_capacity a <= 100 /\ 0 <= habit_foundation a <= 100
   /\ 0 <= mindset a <= 100 /\ 0 <= skill_fit a <= 100)%Q.

End Spec.

(** ** Sample data *)

Module Samples.

(** The questionnaire posted by [test_submit_questionnaire]. *)
Definition test_questionnaire : QuestionnaireResponse := {|
  energizing_activities :=
    "coding and design work, solving complex problems, building user interfaces";
  passionate_problems :=
    "help students learn programming more effectively and create better educational tools";
  skills := ["Programming/Coding"; "Design"; "Teaching"];
  weekday_hours := 6;
  weekend_hours := 8;
  chronotype := EARLY_MORNING;
  morning_routine :=
    "Wake up at 5:30, drink water, 10 minutes meditation, review daily goals";
  morning_routine_duration := Some 30;
  habit_count := THREE_TO_FOUR;
  setback_reaction := LEARN_ITERATE;
  outcome_1 := "Launch a successful coding bootcamp for beginners";
  outcome_2 := "Build and monetize 3 educational web applications";
  outcome_3 := "Establish a consistent content creation routine";
  key_habit_change := "consistent daily coding practice and content creation";
  distractions := ["Social media"; "Notifications"; "Email"];
  commitment_level := 9
|}.

(** Scenario A: early morning, no morning routine, eight hours every day. *)
Definition scenario_A : QuestionnaireResponse := {|
  energizing_activities := "reading";
  passionate_problems := "none in particular";
  skills := [];
  weekday_hours := 8;
  weekend_hours := 8;
  chronotype := EARLY_MORNING;
  morning_routine := "";
  morning_routine_duration := None;
  habit_count := ZERO;
  setback_reaction := GIVE_UP;
  outcome_1 := "rest";
  outcome_2 := "rest";
  outcome_3 := "rest";
  key_habit_change := "sleep";
  distractions := [];
  commitment_level := 1
|}.

(** Scenario C: two purpose keywords and three outcomes of four words. *)
Definition scenario_C : QuestionnaireResponse := {|
  energizing_activities := "reading";
  passionate_problems := "I want to help and build tools";
  skills := [];
  weekday_hours := 1;
  weekend_hours := 1;
  chronotype := NIGHT;
  morning_routine := "";
  morning_routine_duration := None;
  habit_count := ZERO;
  setback_reaction := GIVE_UP;
  outcome_1 := "run a full marathon";
  outcome_2 := "write one short book";
  outcome_3 := "learn to play piano";
  key_habit_change := "sleep";
  distractions := [];
  commitment_level := 1
|}.

(** Scenario E: no skill listed, on a profile that is purpose driven, high
    in energy and high in focus. *)
Definition scenario_E : QuestionnaireResponse := {|
  energizing_activities := "coding, design and writing";
  passionate_problems := "help people build and create";
  skills := [];
  weekday_hours := 8;
  weekend_hours := 8;
  chronotype := EARLY_MORNING;
  morning_routine := "";
  morning_routine_duration := None;
  habit_count := ONE_TO_TWO;
  setback_reaction := ADJUST_APPROACH;
  outcome_1 := "ship a product";
  outcome_2 := "run a marathon";
  outcome_3 := "read more";
  key_habit_change := "morning pages";
  distractions := [];
  commitment_level := 8
|}.

(** The profile that the questionnaire route stores for a questionnaire. *)
Definition stored_profile (q : QuestionnaireResponse) : UserProfile :=
  mkProfile "profile-1" q (Scoring.computed_axes q)
    (determine_archetype (Scoring.computed_axes q))
    "2025-01-01T00:00:00+00:00".

End Samples.

(** ** More text helpers *)

Module TextAux.

Import Text.

(** No character of [w] is a space. *)
Fixpoint spaceless (w : string) : bool :=
  match w with
  | EmptyString => true
  | String c w' => negb (isspace c) && spaceless w'
  end.

End TextAux.

(** ** More questionnaires that differ in one answer *)

Definition with_outcomes (q : QuestionnaireResponse) (o1 o2 o3 : string)
  : QuestionnaireResponse :=
  mkQuestionnaire (energizing_activities q) (passionate_problems q) (skills q)
    (weekday_hours q) (weekend_hours q) (chronotype q) (morning_routine q)
    (morning_routine_duration q) (habit_count q) (setback_reaction q)
    o1 o2 o3 (key_habit_change q)
    (distractions q) (commitment_level q).

Definition with_distractions (q : QuestionnaireResponse) (l : list string)
  : QuestionnaireResponse :=
  mkQuestionnaire (energizing_activities q) (passionate_problems q) (skills q)
    (weekday_hours q) (weekend_hours q) (chronotype q) (morning_routine q)
    (morning_routine_duration q) (habit_count q) (setback_reaction q)
    (outcome_1 q) (outcome_2 q) (outcome_3 q) (key_habit_change q)
    l (commitment_level q).

Definition with_hours (q : QuestionnaireResponse) (weekday weekend : Q)
  : QuestionnaireResponse :=
  mkQuestionnaire (energizing_activities q) (passionate_problems q) (skills q)
    weekday weekend (chronotype q) (morning_routine q)
    (morning_routine_duration q) (habit_count q) (setback_reaction q)
    (outcome_1 q) (outcome_2 q) (outcome_3 q) (key_habit_change q)
    (distractions q) (commitment_level q).

Definition with_morning_routine (q : QuestionnaireResponse) (t : string)
  : QuestionnaireResponse :=
  mkQuestionnaire (energizing_activities q) (passionate_problems q) (skills q)
    (weekday_hours q) (weekend_hours q) (chronotype q) t
    (morning_routine_duration q) (habit_count q) (setback_reaction q)
    (outcome_1 q) (outcome_2 q) (outcome_3 q) (key_habit_change q)
    (distractions q) (commitment_level q).

(** Every text answer put in lower case. *)
Definition lower_answers (q : QuestionnaireResponse) : QuestionnaireResponse :=
  mkQuestionnaire (Text.lower (energizing_activities q))
    (Text.lower (passionate_problems q)) (map Text.lower (skills q))
    (weekday_hours q) (weekend_hours q) (chronotype q)
    (Text.lower (morning_routine q))
    (morning_routine_duration q) (habit_count q) (setback_reaction q)
    (Text.lower (outcome_1 q)) (Text.lower (outcome_2 q))
    (Text.lower (outcome_3 q)) (Text.lower (key_habit_change q))
    (map Text.lower (distractions q)) (commitment_level q).

(** ** API routes

    The handlers of the router, as functions of the database state.  A
    collection is the list of its documents in insertion order, [insert_one]
    appends and [find_one] returns the first match; a document is the record
    it was made from, so the passage through [dict()] and the ISO text of
    [created_at] is not modelled.  The identifier and the time stamp that the
    default factories draw ([uuid4], [datetime.now]) are arguments.
    [insert_one] raises on an [int] beyond the eight bytes of BSON; the other
    failures of a database (a lost connection, a document above the size
    limit) are not modelled. *)

(** The [id] of a profile, under a name that the [id] of a plan leaves free. *)
Definition UserProfile_id (p : UserProfile) : string := id p.

Module UserPlanRecord.

Record UserPlan : Type := mkUserPlan {
  id : string;
  profile_id : string;
  plan : PlanTemplate;
  created_at : string
}.

End UserPlanRecord.

Module Api.

Import UserPlanRecord.

Record Database : Type := mkDatabase {
  user_profiles : list UserProfile;
  user_plans : list UserPlan
}.

(** What a handler hands back: the response model or an [HTTPException]. *)
Inductive Response (A : Type) : Type :=
| Returned (a : A)
| HTTPException (status_code : Z) (detail : string).

Arguments Returned {A} a.
Arguments HTTPException {A} status_code detail.

(** [find_one({"id": profile_id})] on the profiles. *)
Definition find_profile (profile_id : string) (db : Database)
  : option UserProfile :=
  find (fun doc => String.eqb (UserProfile_id doc) profile_id) (user_profiles db).

(** [find_one({"profile_id": profile_id})] on the plans. *)
Definition find_plan (profile_id : string) (db : Database) : option UserPlan :=
  find (fun doc => String.eqb (UserPlanRecord.profile_id doc) profile_id)
    (user_plans db).

(** The [UserProfile] built from a stored document: the field constraints of
    the nested models are checked again ([commitment_level] from 1 to 10, every axis
    from 0 to 100). *)
Definition UserProfile_validates (p : UserProfile) : bool :=
  (1 <=? commitment_level (questionnaire p))
  && (commitment_level (questionnaire p) <=? 10)
  && in_unit_range (purpose_clarity (axes p))
  && in_unit_range (energy_chronotype (axes p))
  && in_unit_range (focus_capacity (axes p))
  && in_unit_range (habit_foundation (axes p))
  && in_unit_range (mindset (axes p))
  && in_unit_range (skill_fit (axes p)).

(** An [int] that BSON holds: eight bytes, signed. *)
Definition bson_int (n : Z) : bool :=
  (- 2 ^ 63 <=? n) && (n <=? 2 ^ 63 - 1).

(** [insert_one] can encode the profile: the [int]s of its questionnaire
    fit.  (The floats and the texts always do.) *)
Definition profile_encodable (p : UserProfile) : bool :=
  bson_int (commitment_level (questionnaire p))
  && match morning_routine_duration (questionnaire p) with
     | Some d => bson_int d
     | None => true
     end.

(** POST /questionnaire. *)
Definition submit_questionnaire (new_id now : string)
    (questionnaire : QuestionnaireResponse) (db : Database)
  : Response UserProfile * Database :=
  match Scoring.calculate_profile_axes questionnaire with
  | Ok axes =>
      let archetype := determine_archetype axes in
      let profile := mkProfile new_id questionnaire axes archetype now in
      if profile_encodable profile then
        (Returned profile,
         mkDatabase (user_profiles db ++ [profile]) (user_plans db))
      else (HTTPException 500 "Error processing questionnaire", db)
  | Raised _ => (HTTPException 500 "Error processing questionnaire", db)
  end.

(** GET /profile/{profile_id}. *)
Definition get_profile (profile_id : string) (db : Database)
  : Response UserProfile :=
  match find_profile profile_id db with
  | None => HTTPException 404 "Profile not found"
  | Some profile_data =>
      if UserProfile_validates profile_data then Returned profile_data
      else HTTPException 500 "Error retrieving profile"
  end.

(** POST /plan/{profile_id}. *)
Definition generate_plan (new_id now : string) (profile_id : string)
    (db : Database) : Response UserPlan * Database :=
  match find_profile profile_id db with
  | None => (HTTPException 404 "Profile not found", db)
  | Some profile_data =>
      if UserProfile_validates profile_data then
        match Plan.generate_plan_template profile_data with
        | Ok plan_template =>
            let user_plan := mkUserPlan new_id profile_id plan_template now in
            (Returned user_plan,
             mkDatabase (user_profiles db) (user_plans db ++ [user_plan]))
        | Raised _ => (HTTPException 500 "Error generating plan", db)
        end
      else (HTTPException 500 "Error generating plan", db)
  end.

(** GET /plan/{profile_id}. *)
Definition get_plan (profile_id : string) (db : Database) : Response UserPlan :=
  match find_plan profile_id db with
  | None => HTTPException 404 "Plan not found"
  | Some plan_data => Returned plan_data
  end.

(** The requests a client can send, and the database after a run of them. *)
Inductive Request : Type :=
| PostQuestionnaire (new_id now : string) (q : QuestionnaireResponse)
| GetProfile (profile_id : string)
| PostPlan (new_id now : string) (profile_id : string)
| GetPlan (profile_id : string).

Definition step (db : Database) (r : Request) : Database :=
  match r with
  | PostQuestionnaire new_id now q => snd (submit_questionnaire new_id now q db)
  | GetProfile _ => db
  | PostPlan new_id now profile_id => snd (generate_plan new_id now profile_id db)
  | GetPlan _ => db
  end.

Definition run (db : Database) (rs : list Request) : Database :=
  fold_left step rs db.

Definition empty : Database := mkDatabase [] [].

End Api.

(** ** Runs of requests *)

Module ApiRuns.

Import UserPlanRecord Api.

(** The questionnaire of a request is a [QuestionnaireResponse]: its
    commitment level is between 1 and 10. *)
Definition wellformed (r : Request) : Prop :=
  match r with
  | PostQuestionnaire _ _ q => 1 <= commitment_level q <= 10
  | _ => True
  end.

(** The identifiers drawn for the profiles of a run. *)
Fixpoint submitted_ids (rs : list Request) : list string :=
  match rs with
  | [] => []
  | PostQuestionnaire new_id _ _ :: rs' => new_id :: submitted_ids rs'
  | _ :: rs' => submitted_ids rs'
  end.

(** Every stored profile passes the checks of its models and holds the axes
    and the archetype of its questionnaire; every stored plan belongs to a
    stored profile and is the plan of that profile. *)
Definition consistent (db : Database) : Prop :=
  (forall p, In p (user_profiles db) ->
             UserProfile_validates p = true
             /\ Scoring.calculate_profile_axes (questionnaire p) = Ok (axes p)
             /\ archetype p = determine_archetype (axes p))
  /\ (forall up, In up (user_plans db) ->
                 exists p, find_profile (profile_id up) db = Some p
                           /\ Plan.generate_plan_template p = Ok (plan up)).

End ApiRuns.

(** * Properties *)

(** ** Text lemmas *)

Module TextFacts.

Import Text.

Lemma isspace_lower_char (c : ascii) : isspace (lower_char c) = isspace c.
Proof.
  destruct c as [b0 b1 b2 b3 b4 b5 b6 b7].
  destruct b0, b1, b2, b3, b4, b5, b6, b7; reflexivity.
Qed.

Lemma starts_word_lower (s : string) : starts_word (lower s) = starts_word s.
Proof.
  destruct s as [|c s]; simpl; [reflexivity|].
  now rewrite isspace_lower_char.
Qed.

(** Lowering a text and splitting it gives the lowered words of the text. *)
Lemma split_lower (s : string) : split (lower s) = map lower (split s).
Proof.
  induction s as [|c s IH]; simpl; [reflexivity|].
  rewrite isspace_lower_char, starts_word_lower, IH.
  destruct (isspace c); [reflexivity|].
  destruct (starts_word s); [|reflexivity].
  destruct (split s); reflexivity.
Qed.

Lemma lower_app (a b : string) : lower (a ++ b) = lower a ++ lower b.
Proof.
  induction a as [|c a IH]; simpl; [reflexivity|now rewrite IH].
Qed.

(** A text made of spaces only has no word. *)
Lemma split_blank (s : string) : blank s = true -> split s = [].
Proof.
  induction s as [|c s IH]; simpl; [reflexivity|].
  intros H. apply andb_true_iff in H as [Hc Hs].
  rewrite Hc. now apply IH.
Qed.

(** A text with no word is made of spaces only. *)
Lemma blank_split (s : string) : split s = [] -> blank s = true.
Proof.
  induction s as [|c s IH]; simpl; [reflexivity|].
  destruct (isspace c); simpl; [exact IH|].
  destruct (starts_word s); [|discriminate].
  destruct (split s); discriminate.
Qed.

Lemma split_nil_iff (s : string) : split s = [] <-> blank s = true.
Proof. split; [apply blank_split | apply split_blank]. Qed.

Lemma prefix_app_sep (c : ascii) (w a b : string) :
  avoids c w = true ->
  prefix w (a ++ String c b) = prefix w a.
Proof.
  revert a. induction w as [|x w IH]; intros a Hw; [now destruct a|].
  simpl in Hw. apply andb_true_iff in Hw as [Hx Hw].
  destruct a as [|y a]; simpl.
  - destruct (ascii_dec x c) as [->|_]; [|reflexivity].
    now rewrite Ascii.eqb_refl in Hx.
  - destruct (ascii_dec x y); [now apply IH|reflexivity].
Qed.

(** A word free of the separator occurs in [a ++ sep ++ b] exactly when it
    occurs in [a] or in [b]. *)
Lemma contains_app_sep (c : ascii) (w a b : string) :
  avoids c w = true ->
  contains w (a ++ String c b) = contains w a || contains w b.
Proof.
  intros Hw. induction a as [|y a IH].
  - change (EmptyString ++ String c b) with (String c b).
    cbn [contains].
    rewrite <- (prefix_app_sep c w EmptyString b Hw).
    change (EmptyString ++ String c b) with (String c b).
    now rewrite orb_false_r.
  - change (String y a ++ String c b) with (String y (a ++ String c b)).
    cbn [contains].
    change (String y (a ++ String c b)) with (String y a ++ String c b).
    rewrite (prefix_app_sep c w (String y a) b Hw), IH.
    now rewrite orb_assoc.
Qed.

Lemma contains_app_space (w a b : string) :
  avoids " " w = true ->
  contains w (a ++ " " ++ b) = contains w a || contains w b.
Proof. apply (contains_app_sep " "). Qed.

Lemma repeated_succ (t : string) (n : nat) :
  repeated t (S (S n)) = t ++ String " " (repeated t (S n)).
Proof. reflexivity. Qed.

Lemma lower_repeated (t : string) (n : nat) :
  lower (repeated t n) = repeated (lower t) n.
Proof.
  destruct n as [|n]; [reflexivity|].
  induction n as [|n IH]; [reflexivity|].
  rewrite !repeated_succ, lower_app. cbn [lower].
  now rewrite IH.
Qed.

(** Repeating a text does not change which space-free words occur in it. *)
Lemma contains_repeated (w t : string) (n : nat) :
  avoids " " w = true ->
  contains w (repeated t (S n)) = contains w t.
Proof.
  intros Hw. induction n as [|n IH]; [reflexivity|].
  rewrite repeated_succ, (contains_app_sep " " w t _ Hw), IH.
  apply orb_diag.
Qed.

End TextFacts.

(** ** Facts on the scores *)

Module ScoringFacts.

Import Text Scoring.

Lemma fold_add_const (A : Type) (v : Z) (l : list A) (acc : Z) :
  fold_left Z.add (map (fun _ => v) l) acc = acc + v * Z.of_nat (List.length l).
Proof.
  revert acc. induction l as [|x l IH]; intros acc.
  - simpl. lia.
  - cbn [map fold_left List.length]. rewrite IH. lia.
Qed.

(** A sum of equal terms is the term times the number of terms. *)
Lemma sum_const (A : Type) (v : Z) (l : list A) :
  sum (map (fun _ => v) l) = v * Z.of_nat (List.length l).
Proof. unfold sum. rewrite fold_add_const. lia. Qed.

(** The accumulating loop adds 15 for each element passing the test. *)
Lemma fold_add_if (A : Type) (p : A -> bool) (l : list A) (acc : Z) :
  fold_left (fun a x => if p x then a + 15 else a) l acc
  = acc + 15 * Z.of_nat (List.length (filter p l)).
Proof.
  revert acc. induction l as [|x l IH]; intros acc.
  - simpl. lia.
  - cbn [fold_left filter]. rewrite IH.
    destruct (p x); cbn [List.length]; lia.
Qed.

Lemma skill_alignment_count (q : QuestionnaireResponse) :
  skill_alignment q
  = 15 * Z.of_nat (List.length (filter (skill_aligned q) (skills q))).
Proof. unfold skill_alignment. now rewrite fold_add_if. Qed.

Lemma chronotype_scores_bounds (c : ChronotypeChoice) :
  30 <= chronotype_scores c <= 90.
Proof. destruct c; simpl; lia. Qed.

Lemma habit_scores_bounds (h : HabitCount) : 10 <= habit_scores h <= 90.
Proof. destruct h; simpl; lia. Qed.

Lemma setback_scores_bounds (r : SetbackReaction) : 20 <= setback_scores r <= 95.
Proof. destruct r; simpl; lia. Qed.

Lemma inject_Z_le (a b : Z) : a <= b -> (inject_Z a <= inject_Z b)%Q.
Proof. intros H. now rewrite <- Zle_Qle. Qed.

Lemma Qmin_nonneg (x y : Q) : (0 <= x -> 0 <= y -> 0 <= Qmin x y)%Q.
Proof. intros Hx Hy. now apply Q.min_glb. Qed.

Lemma half_nonneg (d : Z) : 0 <= d -> (0 <= inject_Z d / 2)%Q.
Proof.
  intros Hd. apply Qle_shift_div_l; [reflexivity|].
  rewrite Qmult_0_l. now apply (inject_Z_le 0 d).
Qed.

Lemma avg_hours_nonneg (q : QuestionnaireResponse) :
  (0 <= weekday_hours q -> 0 <= weekend_hours q -> 0 <= avg_hours q)%Q.
Proof.
  intros Hd He. unfold avg_hours.
  apply Qle_shift_div_l; [reflexivity|].
  rewrite Qmult_0_l.
  apply (Qle_trans _ (0 + 0)); [discriminate|].
  apply Qplus_le_compat; apply Qmult_le_0_compat; trivial; discriminate.
Qed.

Lemma energy_score_lower (q : QuestionnaireResponse) :
  match morning_routine_duration q with
  | Some d => 0 <= d
  | None => True
  end ->
  (30 <= energy_score_exact q)%Q.
Proof.
  intros Hd. unfold energy_score_exact.
  assert (Hb : (30 <= inject_Z (chronotype_scores (chronotype q)))%Q).
  { apply (inject_Z_le 30). apply chronotype_scores_bounds. }
  destruct (morning_routine_duration q) as [d|]; [|exact Hb].
  destruct (truthy (strip (morning_routine q)) && negb (d =? 0)); [|exact Hb].
  apply (Qle_trans _ (30 + 0)); [discriminate|].
  apply Qplus_le_compat; [exact Hb|].
  apply Qmin_nonneg; [discriminate|now apply half_nonneg].
Qed.

Lemma time_score_nonneg (q : QuestionnaireResponse) :
  (0 <= weekday_hours q -> 0 <= weekend_hours q -> 0 <= time_score q)%Q.
Proof.
  intros Hd He. unfold time_score.
  apply Qmin_nonneg; [discriminate|].
  apply Qmult_le_0_compat; [now apply avg_hours_nonneg|discriminate].
Qed.

Lemma skill_fit_value_bounds (q : QuestionnaireResponse) :
  0 <= skill_fit_value q <= 100.
Proof.
  unfold skill_fit_value, skill_base, skill_count.
  rewrite skill_alignment_count. lia.
Qed.

Lemma in_unit_range_Z (n : Z) : 0 <= n <= 100 -> in_unit_range (inject_Z n) = true.
Proof.
  intros [H0 H1]. unfold in_unit_range.
  apply andb_true_iff; split; apply Qle_bool_iff.
  - now apply (inject_Z_le 0 n).
  - now apply (inject_Z_le n 100).
Qed.

Lemma in_unit_range_iff (x : Q) : in_unit_range x = true <-> (0 <= x <= 100)%Q.
Proof.
  unfold in_unit_range. rewrite andb_true_iff, !Qle_bool_iff. tauto.
Qed.

(** [energy_score] raises exactly when the division of the routine bonus
    overflows, and returns the exact score otherwise. *)
Lemma energy_score_outcome (q : QuestionnaireResponse) :
  energy_score q
  = if routine_division_overflows q then Raised OverflowError
    else Ok (energy_score_exact q).
Proof.
  unfold energy_score, routine_division_overflows, energy_score_exact,
    int_true_divide.
  destruct (morning_routine_duration q) as [d|]; [|reflexivity].
  destruct (truthy (strip (morning_routine q)) && negb (d =? 0));
    [|reflexivity].
  cbn [andb].
  change (inject_Z 2) with 2%Q.
  now destruct (Qle_bool _ _).
Qed.

(** The range check of the constructor on the computed values. *)
Lemma calculate_profile_axes_outcome (q : QuestionnaireResponse) :
  calculate_profile_axes q
  = if routine_division_overflows q then Raised OverflowError
    else ProfileAxes_new
           (inject_Z (purpose_clarity_value q)) (energy_chronotype_value q)
           (focus_capacity_value q) (inject_Z (habit_foundation_value q))
           (inject_Z (mindset_value q)) (inject_Z (skill_fit_value q)).
Proof.
  unfold calculate_profile_axes. rewrite energy_score_outcome.
  now destruct (routine_division_overflows q).
Qed.

Lemma calculate_profile_axes_overflow (q : QuestionnaireResponse) :
  routine_division_overflows q = true ->
  calculate_profile_axes q = Raised OverflowError.
Proof. intros H. now rewrite calculate_profile_axes_outcome, H. Qed.

(** Whatever [calculate_profile_axes] returns holds the computed values. *)
Lemma calculate_profile_axes_inv (q : QuestionnaireResponse) (a : ProfileAxes) :
  calculate_profile_axes q = Ok a -> a = computed_axes q.
Proof.
  rewrite calculate_profile_axes_outcome.
  destruct (routine_division_overflows q); [discriminate|].
  unfold ProfileAxes_new.
  destruct (_ && _); [|discriminate].
  now intros [= <-].
Qed.

Lemma calculate_profile_axes_no_overflow (q : QuestionnaireResponse)
    (a : ProfileAxes) :
  calculate_profile_axes q = Ok a -> routine_division_overflows q = false.
Proof.
  rewrite calculate_profile_axes_outcome.
  now destruct (routine_division_overflows q).
Qed.

(** On a structurally valid questionnaire whose division returns, the range
    check passes. *)
Lemma calculate_profile_axes_valid (q : QuestionnaireResponse) :
  Spec.structurally_valid q ->
  routine_division_overflows q = false ->
  calculate_profile_axes q = Ok (computed_axes q).
Proof.
  intros Hvalid Hno. rewrite calculate_profile_axes_outcome, Hno.
  revert Hvalid.
  intros (Hd & He & Hm & Hc).
  unfold ProfileAxes_new.
  rewrite !in_unit_range_Z.
  - assert (H1 : in_unit_range (energy_chronotype_value q) = true).
    { apply in_unit_range_iff.
      unfold energy_chronotype_value, energy_chronotype_of. split.
      - apply Qmin_nonneg; [discriminate|].
        apply (Qle_trans _ (30 + 0)); [discriminate|].
        apply Qplus_le_compat;
          [now apply energy_score_lower|now apply time_score_nonneg].
      - apply Q.le_min_l. }
    assert (H2 : in_unit_range (focus_capacity_value q) = true).
    { apply in_unit_range_iff. unfold focus_capacity_value. split.
      - apply Qmin_nonneg; [discriminate|apply Q.le_max_l].
      - apply Q.le_min_l. }
    now rewrite H1, H2.
  - apply skill_fit_value_bounds.
  - unfold mindset_value, mindset_base, commitment_bonus.
    pose proof (setback_scores_bounds (setback_reaction q)). lia.
  - unfold habit_foundation_value, habit_base.
    pose proof (habit_scores_bounds (habit_count q)).
    destruct (_ >? _); lia.
  - unfold purpose_clarity_value. lia.
Qed.

End ScoringFacts.

(** ** Axis scorer *)

Lemma ProfileAxes_new_range (pc ec fc hf ms sf : Q) (a : ProfileAxes) :
  ProfileAxes_new pc ec fc hf ms sf = Ok a -> Spec.axes_in_range a.
Proof.
  unfold ProfileAxes_new.
  destruct (_ && _) eqn:E; [|discriminate].
  intros [= <-].
  repeat (apply andb_true_iff in E as [E ?]).
  repeat match goal with
         | H : in_unit_range _ = true |- _ =>
             apply ScoringFacts.in_unit_range_iff in H
         end.
  repeat match goal with
         | H : Qle_bool _ _ = true |- _ => apply Qle_bool_iff in H
         end.
  unfold Spec.axes_in_range; cbn. tauto.
Qed.

Lemma calculate_profile_axes_range (q : QuestionnaireResponse)
    (a : ProfileAxes) :
  Scoring.calculate_profile_axes q = Ok a -> Spec.axes_in_range a.
Proof.
  rewrite ScoringFacts.calculate_profile_axes_outcome.
  destruct (Scoring.routine_division_overflows q); [discriminate|].
  apply ProfileAxes_new_range.
Qed.

(** A duration that the division does not overflow on: any below [2^1025 -
    2^971], so any that fits in 64 bits. *)
Lemma small_duration_no_overflow (q : QuestionnaireResponse) :
  match morning_routine_duration q with
  | Some d => Z.abs d < 2 ^ 1025 - 2 ^ 971
  | None => True
  end ->
  Scoring.routine_division_overflows q = false.
Proof.
  unfold Scoring.routine_division_overflows.
  destruct (morning_routine_duration q) as [d|]; [|reflexivity].
  intros Hd. apply andb_false_iff. right.
  destruct (Qle_bool _ _) eqn:E; [|reflexivity].
  exfalso. apply Qle_bool_iff in E.
  unfold Qle, Qabs, Qdiv, Qmult, Qinv, inject_Z in E.
  cbn [Qnum Qden Pos.mul] in E.
  rewrite !Z.mul_1_r in E.
  unfold Scoring.float_overflow_limit in E.
  replace ((2 ^ 1024 - 2 ^ 970) * 2) with (2 ^ 1025 - 2 ^ 971) in E
    by (vm_compute; reflexivity).
  lia.
Qed.

(** C1. On every structurally valid questionnaire (hours not negative, a
    present routine duration not negative, commitment level from 1 to 10)
    the axes that [calculate_profile_axes] returns are the computed scores
    and each of the six fields lies between 0 and 100.  Axes are returned
    unless the division of the routine duration overflows the floats, which
    takes a duration of [2^1025 - 2^971] minutes or more; [OverflowError] is
    raised then, and nothing else is ever raised on such a questionnaire. *)
Theorem calculate_profile_axes_in_range (q : QuestionnaireResponse) :
  Spec.structurally_valid q ->
  (forall a : ProfileAxes,
      Scoring.calculate_profile_axes q = Ok a ->
      a = Scoring.computed_axes q /\ Spec.axes_in_range a)
  /\ (Scoring.routine_division_overflows q = false ->
      exists a : ProfileAxes,
        Scoring.calculate_profile_axes q = Ok a
        /\ a = Scoring.computed_axes q
        /\ Spec.axes_in_range a)
  /\ (Scoring.routine_division_overflows q = true ->
      Scoring.calculate_profile_axes q = Raised OverflowError).
Proof.
  intros Hv. split; [|split].
  - intros a Ha. split.
    + now apply ScoringFacts.calculate_profile_axes_inv.
    + now apply (calculate_profile_axes_range q).
  - intros Hno. exists (Scoring.computed_axes q).
    pose proof (ScoringFacts.calculate_profile_axes_valid q Hv Hno) as Hok.
    repeat split; trivial.
    all: apply (calculate_profile_axes_range q _ Hok).
  - apply ScoringFacts.calculate_profile_axes_overflow.
Qed.

Lemma calculate_profile_axes_in_range_witness :
  exists a : ProfileAxes,
    Scoring.calculate_profile_axes Samples.test_questionnaire = Ok a
    /\ a = Scoring.computed_axes Samples.test_questionnaire
    /\ Spec.axes_in_range a.
Proof.
  apply (calculate_profile_axes_in_range Samples.test_questionnaire).
  - unfold Spec.structurally_valid, Qle; simpl. lia.
  - vm_compute. reflexivity.
Defined.

(** ** Archetype classifier *)

Lemma Qge_bool_iff (x y : Q) : Qge_bool x y = true <-> (y <= x)%Q.
Proof. apply Qle_bool_iff. Qed.

Lemma Qlt_bool_iff (x y : Q) : Qlt_bool x y = true <-> (x < y)%Q.
Proof.
  unfold Qlt_bool. rewrite negb_true_iff. split.
  - intros H. apply Qnot_le_lt. intros Hle.
    apply Qle_bool_iff in Hle. congruence.
  - intros H. destruct (Qle_bool y x) eqn:E; [|reflexivity].
    apply Qle_bool_iff in E. exfalso. now apply (Qlt_not_le x y).
Qed.

Lemma rule_1_iff (a : ProfileAxes) :
  Qge_bool (purpose_clarity a) 60 && Qge_bool (energy_chronotype a) 70
  && Qge_bool (focus_capacity a) 60 = true <-> Spec.rule_1 a.
Proof.
  unfold Spec.rule_1. rewrite !andb_true_iff, !Qge_bool_iff. tauto.
Qed.

Lemma rule_2_iff (a : ProfileAxes) :
  Qlt_bool (habit_foundation a) 40 && Qlt_bool (energy_chronotype a) 60 = true
  <-> Spec.rule_2 a.
Proof.
  unfold Spec.rule_2. rewrite !andb_true_iff, !Qlt_bool_iff. tauto.
Qed.

(** No axes meet the threshold sets of both rules: rule 1 asks for an energy
    score of at least 70 and rule 2 for one below 60. *)
Lemma rule_1_rule_2_disjoint (a : ProfileAxes) :
  Spec.rule_1 a -> Spec.rule_2 a -> False.
Proof.
  intros (_ & H70 & _) (_ & H60).
  apply (Qlt_not_le _ _ H60).
  apply (Qle_trans _ 70); [discriminate|exact H70].
Qed.

(** C2. [determine_archetype] is a total function whose rules are tried in
    order, the first match winning: PURPOSE_DRIVEN_HIGH_ENERGY whenever the
    thresholds of rule 1 hold (whatever the other axes are, so also when
    those of rule 2 hold); otherwise LOW_ENERGY_WANTS_CHANGE whenever the
    thresholds of rule 2 hold; otherwise EXPLORATORY_MODERATE. *)
Theorem determine_archetype_priority (a : ProfileAxes) :
  (Spec.rule_1 a -> determine_archetype a = PURPOSE_DRIVEN_HIGH_ENERGY)
  /\ (~ Spec.rule_1 a -> Spec.rule_2 a ->
      determine_archetype a = LOW_ENERGY_WANTS_CHANGE)
  /\ (~ Spec.rule_1 a -> ~ Spec.rule_2 a ->
      determine_archetype a = EXPLORATORY_MODERATE)
  /\ (determine_archetype a = PURPOSE_DRIVEN_HIGH_ENERGY
      \/ determine_archetype a = LOW_ENERGY_WANTS_CHANGE
      \/ determine_archetype a = EXPLORATORY_MODERATE).
Proof.
  unfold determine_archetype.
  pose proof (rule_1_iff a) as H1. pose proof (rule_2_iff a) as H2.
  destruct (_ && Qge_bool (focus_capacity a) 60) eqn:E1.
  - repeat split; auto. all: intros N; exfalso; apply N; now apply H1.
  - assert (N1 : ~ Spec.rule_1 a) by (intros H; apply H1 in H; discriminate).
    destruct (Qlt_bool (habit_foundation a) 40 && _) eqn:E2.
    + repeat split; auto; try (intros H; contradiction).
      intros _ N. exfalso. apply N. now apply H2.
    + assert (N2 : ~ Spec.rule_2 a) by (intros H; apply H2 in H; discriminate).
      repeat split; auto; intros; contradiction.
Qed.

Lemma determine_archetype_priority_witness :
  determine_archetype (mkAxes 60 70 60 10 0 0) = PURPOSE_DRIVEN_HIGH_ENERGY
  /\ determine_archetype (mkAxes 100 59 100 39 0 0) = LOW_ENERGY_WANTS_CHANGE
  /\ determine_archetype (mkAxes 59 100 100 10 0 0) = EXPLORATORY_MODERATE.
Proof.
  split; [|split].
  - apply (proj1 (determine_archetype_priority (mkAxes 60 70 60 10 0 0))).
    unfold Spec.rule_1, Qle; simpl. lia.
  - apply (proj1 (proj2 (determine_archetype_priority (mkAxes 100 59 100 39 0 0)))).
    + unfold Spec.rule_1, Qle; simpl. lia.
    + unfold Spec.rule_2, Qlt; simpl. lia.
  - apply (proj1 (proj2 (proj2
             (determine_archetype_priority (mkAxes 59 100 100 10 0 0))))).
    + unfold Spec.rule_1, Qle; simpl. lia.
    + unfold Spec.rule_2, Qlt; simpl. lia.
Defined.

(** C9. The archetype does not depend on the mindset and skill-fit axes: two
    axes values that agree on purpose clarity, energy, focus capacity and
    habit foundation get the same archetype. *)
Theorem determine_archetype_ignores_mindset_skill_fit (a b : ProfileAxes) :
  (purpose_clarity a == purpose_clarity b)%Q ->
  (energy_chronotype a == energy_chronotype b)%Q ->
  (focus_capacity a == focus_capacity b)%Q ->
  (habit_foundation a == habit_foundation b)%Q ->
  determine_archetype a = determine_archetype b.
Proof.
  intros Hp He Hf Hh. unfold determine_archetype, Qge_bool, Qlt_bool.
  assert (Ep : forall t, Qle_bool t (purpose_clarity a)
                         = Qle_bool t (purpose_clarity b))
    by (intros t; now rewrite Hp).
  assert (Ee : forall t, Qle_bool t (energy_chronotype a)
                         = Qle_bool t (energy_chronotype b))
    by (intros t; now rewrite He).
  assert (Ef : forall t, Qle_bool t (focus_capacity a)
                         = Qle_bool t (focus_capacity b))
    by (intros t; now rewrite Hf).
  assert (Eh : forall t, Qle_bool t (habit_foundation a)
                         = Qle_bool t (habit_foundation b))
    by (intros t; now rewrite Hh).
  now rewrite Ep, !Ee, Ef, Eh.
Qed.

Lemma determine_archetype_ignores_mindset_skill_fit_witness :
  determine_archetype (mkAxes 80 75 65 50 0 100)
  = determine_archetype (mkAxes 80 75 65 50 100 0).
Proof.
  apply determine_archetype_ignores_mindset_skill_fit; reflexivity.
Defined.

(** ** Plan synthesizer *)

Module PlanFacts.

Import Text Plan.

(** The time blocks of a template: three for the high-energy archetype, two
    for the others. *)
Lemma base_template_blocks (arch : Archetype) (q : QuestionnaireResponse) :
  List.length (snd (base_template arch q))
  = match arch with
    | PURPOSE_DRIVEN_HIGH_ENERGY => 3%nat
    | _ => 2%nat
    end.
Proof. now destruct arch. Qed.

(** Synthesis returns a plan exactly when the key habit change has a word. *)
Lemma generate_plan_template_ok_iff (p : UserProfile) :
  (exists plan, generate_plan_template p = Ok plan)
  <-> blank (key_habit_change (questionnaire p)) = false.
Proof.
  unfold generate_plan_template.
  destruct (split (key_habit_change (questionnaire p))) as [|w ws] eqn:S.
  - apply TextFacts.blank_split in S. rewrite S.
    split; [intros [plan H]|discriminate].
    destruct (base_template _ _) as [[goal pl] blocks]. discriminate.
  - assert (Hb : blank (key_habit_change (questionnaire p)) = false).
    { destruct (blank _) eqn:E; [|reflexivity].
      apply TextFacts.split_blank in E. congruence. }
    rewrite Hb. split; [reflexivity|intros _].
    destruct (archetype p); cbn; eexists; reflexivity.
Qed.

End PlanFacts.

(** C3 (the code departs from it). When the key habit change is empty or
    made of white space only, [generate_plan_template] does not return a
    plan: taking the first word raises [IndexError]. *)
Theorem generate_plan_template_blank_habit_raises (p : UserProfile) :
  Text.blank (key_habit_change (questionnaire p)) = true ->
  Plan.generate_plan_template p = Raised IndexError.
Proof.
  intros Hb. unfold Plan.generate_plan_template.
  destruct (Plan.base_template _ _) as [[goal pl] blocks].
  now rewrite (TextFacts.split_blank _ Hb).
Qed.

Lemma generate_plan_template_blank_habit_raises_witness :
  Plan.generate_plan_template
    (Samples.stored_profile
       (with_key_habit_change Samples.test_questionnaire ""))
  = Raised IndexError
  /\ Plan.generate_plan_template
       (Samples.stored_profile
          (with_key_habit_change Samples.scenario_C "   "))
     = Raised IndexError.
Proof.
  split; apply generate_plan_template_blank_habit_raises; reflexivity.
Defined.

(** C10. Every template has at least two time blocks (three for
    PURPOSE_DRIVEN_HIGH_ENERGY, two for the others), so whenever synthesis
    returns a plan the cue of its second habit-stack entry is "After "
    followed by the activity of the second time block of the template of the
    profile's archetype, never the "dinner" fallback. *)
Theorem second_habit_cue_is_second_block (p : UserProfile) (plan : PlanTemplate) :
  Plan.generate_plan_template p = Ok plan ->
  (forall arch q,
      (2 <= List.length (snd (Plan.base_template arch q)))%nat
      /\ List.length (snd (Plan.base_template arch q))
         = match arch with
           | PURPOSE_DRIVEN_HIGH_ENERGY => 3%nat
           | _ => 2%nat
           end)
  /\ suggested_time_blocks plan
     = snd (Plan.base_template (archetype p) (questionnaire p))
  /\ exists (entry : HabitStack) (block : TimeBlock),
      nth_error (habit_stack plan) 1 = Some entry
      /\ nth_error (suggested_time_blocks plan) 1 = Some block
      /\ cue entry = "After " ++ activity block
      /\ cue entry <> "After dinner".
Proof.
  intros H. split.
  { intros arch q. rewrite PlanFacts.base_template_blocks.
    destruct arch; lia. }
  unfold Plan.generate_plan_template in H.
  destruct (Text.split (key_habit_change (questionnaire p))) as [|w ws];
    [destruct (Plan.base_template _ _) as [[? ?] ?]; discriminate|].
  destruct (archetype p); cbn in H; injection H as <-; cbn;
    (split; [reflexivity|]); eexists; eexists;
    repeat split; discriminate.
Qed.

Lemma second_habit_cue_is_second_block_witness :
  exists plan : PlanTemplate,
    Plan.generate_plan_template
      (Samples.stored_profile Samples.test_questionnaire)
    = Ok plan
    /\ exists (entry : HabitStack) (block : TimeBlock),
        nth_error (habit_stack plan) 1 = Some entry
        /\ nth_error (suggested_time_blocks plan) 1 = Some block
        /\ cue entry = "After " ++ activity block
        /\ cue entry <> "After dinner".
Proof.
  eexists. split; [reflexivity|].
  refine (proj2 (proj2
            (second_habit_cue_is_second_block
               (Samples.stored_profile Samples.test_questionnaire) _ _))).
  reflexivity.
Defined.

(** ** Keyword matching *)

Module KeywordFacts.

Import Text Scoring.

Lemma purpose_keywords_lower (k : string) :
  In k purpose_keywords -> lower k = k.
Proof. cbn. intuition (subst; reflexivity). Qed.

Lemma focus_keywords_lower (k : string) :
  In k focus_keywords -> lower k = k.
Proof. cbn. intuition (subst; reflexivity). Qed.

Lemma purpose_keywords_avoid_space (k : string) :
  In k purpose_keywords -> avoids " " k = true.
Proof. cbn. intuition (subst; reflexivity). Qed.

Lemma focus_keywords_avoid_space (k : string) :
  In k focus_keywords -> avoids " " k = true.
Proof. cbn. intuition (subst; reflexivity). Qed.

(** The keywords the code finds in the lowered text are the keywords that
    occur in the text, letter case ignored. *)
Lemma purpose_matching (t : string) :
  filter (fun keyword => contains keyword (lower t)) purpose_keywords
  = Spec.matching purpose_keywords t.
Proof.
  apply filter_ext_in. intros k Hk. unfold Spec.occurs_ci.
  now rewrite (purpose_keywords_lower k Hk).
Qed.

Lemma focus_matching (t : string) :
  filter (fun keyword => contains keyword (lower t)) focus_keywords
  = Spec.matching focus_keywords t.
Proof.
  apply filter_ext_in. intros k Hk. unfold Spec.occurs_ci.
  now rewrite (focus_keywords_lower k Hk).
Qed.

Lemma purpose_score_matching (q : QuestionnaireResponse) :
  purpose_score q
  = 20 * Z.of_nat (List.length
                     (Spec.matching purpose_keywords (passionate_problems q)))
    + specific_outcomes q * 15.
Proof.
  unfold purpose_score, q2_lower.
  now rewrite purpose_matching, ScoringFacts.sum_const.
Qed.

Lemma focus_base_matching (q : QuestionnaireResponse) :
  focus_base q
  = 15 * Z.of_nat (List.length
                     (Spec.matching focus_keywords (energizing_activities q))).
Proof.
  unfold focus_base, q1_lower.
  now rewrite focus_matching, ScoringFacts.sum_const.
Qed.

(** Repeating a text keeps the set of keywords that occur in it. *)
Lemma matching_repeated (keywords : list string) (t : string) (n : nat) :
  (forall k, In k keywords -> avoids " " k = true) ->
  (forall k, In k keywords -> lower k = k) ->
  Spec.matching keywords (repeated t (S n)) = Spec.matching keywords t.
Proof.
  intros Hs Hl. apply filter_ext_in. intros k Hk. unfold Spec.occurs_ci.
  rewrite TextFacts.lower_repeated, (Hl k Hk).
  apply TextFacts.contains_repeated. now apply Hs.
Qed.

(** So does repeating a part of it that stands between spaces. *)
Lemma matching_embedded (keywords : list string) (x t y : string) (n : nat) :
  (forall k, In k keywords -> avoids " " k = true) ->
  (forall k, In k keywords -> lower k = k) ->
  Spec.matching keywords (x ++ " " ++ repeated t (S n) ++ " " ++ y)
  = Spec.matching keywords (x ++ " " ++ t ++ " " ++ y).
Proof.
  intros Hs Hl. apply filter_ext_in. intros k Hk. unfold Spec.occurs_ci.
  rewrite (Hl k Hk). pose proof (Hs k Hk) as Hw.
  rewrite !TextFacts.lower_app, TextFacts.lower_repeated.
  change (lower " ") with " ".
  rewrite !(TextFacts.contains_app_space k _ _ Hw).
  now rewrite (TextFacts.contains_repeated k (lower t) n Hw).
Qed.

End KeywordFacts.

(** ** Purpose clarity *)

Lemma specific_outcomes_all (q : QuestionnaireResponse) :
  3 < Spec.word_count (outcome_1 q) ->
  3 < Spec.word_count (outcome_2 q) ->
  3 < Spec.word_count (outcome_3 q) ->
  Scoring.specific_outcomes q = 3.
Proof.
  unfold Spec.word_count, Scoring.specific_outcomes, Scoring.outcomes.
  intros H1 H2 H3. cbn [filter].
  apply Z.gtb_lt in H1, H2, H3. now rewrite H1, H2, H3.
Qed.

(** C4, as the code has it. With passionate problems "I want to help and
    build tools" and three outcomes of more than three words each, the
    purpose clarity is 20 + 20 + 15 + 15 + 15 = 85: the computed score is 85,
    any axes returned hold 85, and a structurally valid questionnaire does
    get axes unless the division of its routine duration overflows. *)
Theorem purpose_clarity_help_build (q : QuestionnaireResponse) :
  passionate_problems q = "I want to help and build tools" ->
  3 < Spec.word_count (outcome_1 q) ->
  3 < Spec.word_count (outcome_2 q) ->
  3 < Spec.word_count (outcome_3 q) ->
  Scoring.purpose_clarity_value q = 85
  /\ (forall a, Scoring.calculate_profile_axes q = Ok a ->
                purpose_clarity a = 85%Q)
  /\ (Spec.structurally_valid q ->
      Scoring.routine_division_overflows q = false ->
      exists a, Scoring.calculate_profile_axes q = Ok a
                /\ purpose_clarity a = 85%Q).
Proof.
  intros Hp H1 H2 H3.
  assert (E : Scoring.purpose_clarity_value q = 85).
  { unfold Scoring.purpose_clarity_value, Scoring.purpose_score,
      Scoring.q2_lower.
    rewrite (specific_outcomes_all q H1 H2 H3), Hp. reflexivity. }
  split; [exact E|split].
  - intros a Ha. apply ScoringFacts.calculate_profile_axes_inv in Ha.
    subst a. cbn [purpose_clarity Scoring.computed_axes]. now rewrite E.
  - intros Hv Hno. exists (Scoring.computed_axes q). split.
    + now apply ScoringFacts.calculate_profile_axes_valid.
    + cbn [purpose_clarity Scoring.computed_axes]. now rewrite E.
Qed.

Lemma purpose_clarity_help_build_witness :
  Scoring.purpose_clarity_value Samples.scenario_C = 85
  /\ exists a, Scoring.calculate_profile_axes Samples.scenario_C = Ok a
               /\ purpose_clarity a = 85%Q.
Proof.
  assert (H : passionate_problems Samples.scenario_C
              = "I want to help and build tools") by reflexivity.
  assert (H1 : 3 < Spec.word_count (outcome_1 Samples.scenario_C))
    by (vm_compute; reflexivity).
  assert (H2 : 3 < Spec.word_count (outcome_2 Samples.scenario_C))
    by (vm_compute; reflexivity).
  assert (H3 : 3 < Spec.word_count (outcome_3 Samples.scenario_C))
    by (vm_compute; reflexivity).
  destruct (purpose_clarity_help_build Samples.scenario_C H H1 H2 H3)
    as (E & _ & Hv).
  split; [exact E|]. apply Hv.
  - unfold Spec.structurally_valid, Qle; simpl. lia.
  - reflexivity.
Defined.

(** C4, as the specification states it, fails: on scenario C, which meets
    every condition of the claim, the axes returned hold a purpose clarity
    of 85 and not 100. *)
Lemma purpose_clarity_scenario_C_not_100 :
  passionate_problems Samples.scenario_C = "I want to help and build tools"
  /\ 3 < Spec.word_count (outcome_1 Samples.scenario_C)
  /\ 3 < Spec.word_count (outcome_2 Samples.scenario_C)
  /\ 3 < Spec.word_count (outcome_3 Samples.scenario_C)
  /\ Spec.structurally_valid Samples.scenario_C
  /\ exists a, Scoring.calculate_profile_axes Samples.scenario_C = Ok a
               /\ (purpose_clarity a == 85)%Q
               /\ ~ (purpose_clarity a == 100)%Q.
Proof.
  repeat split; try (vm_compute; congruence).
  eexists. split; [vm_compute; reflexivity|].
  split; vm_compute; congruence.
Qed.

(** ** Keyword counting *)

Lemma calculate_profile_axes_purpose_ext (q : QuestionnaireResponse)
    (t1 t2 : string) :
  Spec.matching Scoring.purpose_keywords t1
  = Spec.matching Scoring.purpose_keywords t2 ->
  Scoring.calculate_profile_axes (with_passionate_problems q t1)
  = Scoring.calculate_profile_axes (with_passionate_problems q t2).
Proof.
  intros H. unfold Scoring.calculate_profile_axes.
  assert (E : Scoring.purpose_clarity_value (with_passionate_problems q t1)
              = Scoring.purpose_clarity_value (with_passionate_problems q t2)).
  { unfold Scoring.purpose_clarity_value.
    rewrite !KeywordFacts.purpose_score_matching. cbn [passionate_problems
      with_passionate_problems]. now rewrite H. }
  rewrite E. reflexivity.
Qed.

Lemma calculate_profile_axes_focus_ext (q : QuestionnaireResponse)
    (t1 t2 : string) :
  Spec.matching Scoring.focus_keywords t1
  = Spec.matching Scoring.focus_keywords t2 ->
  Scoring.calculate_profile_axes (with_energizing_activities q t1)
  = Scoring.calculate_profile_axes (with_energizing_activities q t2).
Proof.
  intros H. unfold Scoring.calculate_profile_axes.
  assert (E : Scoring.focus_capacity_value (with_energizing_activities q t1)
              = Scoring.focus_capacity_value (with_energizing_activities q t2)).
  { unfold Scoring.focus_capacity_value.
    rewrite !KeywordFacts.focus_base_matching. cbn [energizing_activities
      with_energizing_activities]. now rewrite H. }
  rewrite E. reflexivity.
Qed.

(** C8. The keyword parts of purpose clarity and focus capacity count each
    keyword of the fixed list once when it occurs in the text, letter case
    ignored (20 and 15 a keyword), whatever the number of its occurrences:
    the scores are 20 and 15 times the number of keywords that occur, two
    texts in which the same keywords occur get the same axes, and a text, or
    a part of a text standing between spaces, that is repeated any number of
    times gets the axes of the text with it written once. *)
Theorem keyword_counted_once (q : QuestionnaireResponse) :
  Scoring.purpose_score q
  = 20 * Z.of_nat (List.length (Spec.matching Scoring.purpose_keywords
                                  (passionate_problems q)))
    + Scoring.specific_outcomes q * 15
  /\ Scoring.focus_base q
     = 15 * Z.of_nat (List.length (Spec.matching Scoring.focus_keywords
                                     (energizing_activities q)))
  /\ (forall t1 t2,
         Spec.matching Scoring.purpose_keywords t1
         = Spec.matching Scoring.purpose_keywords t2 ->
         Scoring.calculate_profile_axes (with_passionate_problems q t1)
         = Scoring.calculate_profile_axes (with_passionate_problems q t2))
  /\ (forall t1 t2,
         Spec.matching Scoring.focus_keywords t1
         = Spec.matching Scoring.focus_keywords t2 ->
         Scoring.calculate_profile_axes (with_energizing_activities q t1)
         = Scoring.calculate_profile_axes (with_energizing_activities q t2))
  /\ (forall t n,
         Scoring.calculate_profile_axes
           (with_passionate_problems q (Text.repeated t (S n)))
         = Scoring.calculate_profile_axes (with_passionate_problems q t))
  /\ (forall t n,
         Scoring.calculate_profile_axes
           (with_energizing_activities q (Text.repeated t (S n)))
         = Scoring.calculate_profile_axes
             (with_energizing_activities q t))
  /\ (forall x t y n,
         Scoring.calculate_profile_axes
           (with_passionate_problems q
              (x ++ " " ++ Text.repeated t (S n) ++ " " ++ y))
         = Scoring.calculate_profile_axes
             (with_passionate_problems q (x ++ " " ++ t ++ " " ++ y)))
  /\ (forall x t y n,
         Scoring.calculate_profile_axes
           (with_energizing_activities q
              (x ++ " " ++ Text.repeated t (S n) ++ " " ++ y))
         = Scoring.calculate_profile_axes
             (with_energizing_activities q (x ++ " " ++ t ++ " " ++ y))).
Proof.
  split; [apply KeywordFacts.purpose_score_matching|].
  split; [apply KeywordFacts.focus_base_matching|].
  split; [apply calculate_profile_axes_purpose_ext|].
  split; [apply calculate_profile_axes_focus_ext|].
  split; [intros t n|split; [intros t n|split; intros x t y n]].
  - apply calculate_profile_axes_purpose_ext.
    apply KeywordFacts.matching_repeated.
    + apply KeywordFacts.purpose_keywords_avoid_space.
    + apply KeywordFacts.purpose_keywords_lower.
  - apply calculate_profile_axes_focus_ext.
    apply KeywordFacts.matching_repeated.
    + apply KeywordFacts.focus_keywords_avoid_space.
    + apply KeywordFacts.focus_keywords_lower.
  - apply calculate_profile_axes_purpose_ext.
    apply KeywordFacts.matching_embedded.
    + apply KeywordFacts.purpose_keywords_avoid_space.
    + apply KeywordFacts.purpose_keywords_lower.
  - apply calculate_profile_axes_focus_ext.
    apply KeywordFacts.matching_embedded.
    + apply KeywordFacts.focus_keywords_avoid_space.
    + apply KeywordFacts.focus_keywords_lower.
Qed.

Lemma keyword_counted_once_witness :
  Scoring.calculate_profile_axes
    (with_passionate_problems Samples.test_questionnaire
       "Create, create and CREATE")
  = Scoring.calculate_profile_axes
      (with_passionate_problems Samples.test_questionnaire "create")
  /\ Scoring.calculate_profile_axes
       (with_energizing_activities Samples.test_questionnaire
          "design design design")
     = Scoring.calculate_profile_axes
         (with_energizing_activities Samples.test_questionnaire
            "Design").
Proof.
  split.
  - apply (proj1 (proj2 (proj2 (keyword_counted_once Samples.test_questionnaire)))).
    reflexivity.
  - apply (proj1 (proj2 (proj2 (proj2
                   (keyword_counted_once Samples.test_questionnaire))))).
    reflexivity.
Defined.

(** ** Energy and chronotype *)










(** ** Focus capacity *)





(** ** Skill fit *)






(** ** Worked scenarios *)

(** The questionnaire of the test suite: its axes and its archetype. *)
Example test_questionnaire_axes :
  Scoring.calculate_profile_axes Samples.test_questionnaire
  = Ok (mkAxes 85 100 70 80 100 60)
  /\ determine_archetype (Scoring.computed_axes Samples.test_questionnaire)
     = PURPOSE_DRIVEN_HIGH_ENERGY.
Proof. split; vm_compute; reflexivity. Qed.

(** Scenario B: no habit kept and no habit change named give a habit
    foundation of 10. *)
Example scenario_B_habit_foundation :
  Scoring.habit_foundation_value
    (with_key_habit_change Samples.scenario_A "") = 10.
Proof. reflexivity. Qed.

(** Scenario D: giving up and a commitment of 1 give a mindset of 25. *)
Example scenario_D_mindset : Scoring.mindset_value Samples.scenario_A = 25.
Proof. reflexivity. Qed.

(** A skill counts once for the alignment however many of its words occur in
    the outcomes, and letter case is ignored. *)
Example skill_alignment_once :
  Scoring.skill_fit_value
    (with_skills Samples.test_questionnaire ["Coding Bootcamp"; "Painting"])
  = 55.
Proof. reflexivity. Qed.

(** A questionnaire with an empty key habit change goes through the
    questionnaire route and then makes plan synthesis raise. *)
Example blank_habit_profile_then_raise :
  build_profile "profile-1" "2025-01-01T00:00:00+00:00"
    (with_key_habit_change Samples.test_questionnaire "")
  = Ok (Samples.stored_profile
          (with_key_habit_change Samples.test_questionnaire ""))
  /\ Plan.generate_plan_template
       (Samples.stored_profile
          (with_key_habit_change Samples.test_questionnaire ""))
     = Raised IndexError.
Proof. split; vm_compute; reflexivity. Qed.

(** The stored profiles of the samples come out of the questionnaire route,
    with these archetypes. *)
Example stored_profiles :
  build_profile "profile-1" "2025-01-01T00:00:00+00:00" Samples.scenario_E
  = Ok (Samples.stored_profile Samples.scenario_E)
  /\ archetype (Samples.stored_profile Samples.scenario_E)
     = PURPOSE_DRIVEN_HIGH_ENERGY
  /\ archetype (Samples.stored_profile Samples.scenario_C)
     = LOW_ENERGY_WANTS_CHANGE
  /\ archetype (Samples.stored_profile Samples.scenario_A)
     = EXPLORATORY_MODERATE.
Proof. repeat split; vm_compute; reflexivity. Qed.

(** The questionnaire model itself does not bound the hours: with negative
    hours the energy score falls below 0 and the axes constructor raises. *)
Example negative_hours_raise :
  Scoring.calculate_profile_axes
    (mkQuestionnaire "" "" [] (-100) (-100) NIGHT "" None ZERO GIVE_UP
       "" "" "" "" [] 1)
  = Raised ValidationError.
Proof. vm_compute. reflexivity. Qed.

(** The words and the trimmed form of a text. *)
Example split_strip_sample :
  Text.split "  daily  reading habit " = ["daily"; "reading"; "habit"]
  /\ Text.strip "  daily  reading habit " = "daily  reading habit"
  /\ Text.lower "Deep WORK" = "deep work".
Proof. repeat split. Qed.

(** * Further properties *)

(** ** More text lemmas *)

Module TextMore.

Import Text TextAux.

Lemma lower_char_idem (c : ascii) : lower_char (lower_char c) = lower_char c.
Proof.
  destruct c as [b0 b1 b2 b3 b4 b5 b6 b7].
  destruct b0, b1, b2, b3, b4, b5, b6, b7; reflexivity.
Qed.

Lemma lower_idem (s : string) : lower (lower s) = lower s.
Proof.
  induction s as [|c s IH]; simpl; [reflexivity|].
  now rewrite lower_char_idem, IH.
Qed.

Lemma length_lower (s : string) : String.length (lower s) = String.length s.
Proof. induction s as [|c s IH]; simpl; [reflexivity|now rewrite IH]. Qed.

Lemma truthy_lower (s : string) : truthy (lower s) = truthy s.
Proof. now destruct s. Qed.

Lemma lstrip_lower (s : string) : lstrip (lower s) = lower (lstrip s).
Proof.
  induction s as [|c s IH]; simpl; [reflexivity|].
  rewrite TextFacts.isspace_lower_char.
  destruct (isspace c); [exact IH|reflexivity].
Qed.

Lemma rstrip_lower (s : string) : rstrip (lower s) = lower (rstrip s).
Proof.
  induction s as [|c s IH]; simpl; [reflexivity|].
  rewrite IH, TextFacts.isspace_lower_char.
  destruct (rstrip s); simpl; [|reflexivity].
  now destruct (isspace c).
Qed.

(** Trimming and lowering commute. *)
Lemma strip_lower (s : string) : strip (lower s) = lower (strip s).
Proof. unfold strip. now rewrite lstrip_lower, rstrip_lower. Qed.

Lemma lower_join_space (l : list string) :
  lower (join " " l) = join " " (map lower l).
Proof.
  induction l as [|a l IH]; [reflexivity|].
  destruct l as [|b l]; [reflexivity|].
  change (join " " (a :: b :: l)) with (a ++ " " ++ join " " (b :: l)).
  change (join " " (map lower (a :: b :: l)))
    with (lower a ++ " " ++ join " " (map lower (b :: l))).
  now rewrite !TextFacts.lower_app, IH.
Qed.

Lemma split_lower_length (s : string) :
  List.length (split (lower s)) = List.length (split s).
Proof. now rewrite TextFacts.split_lower, length_map. Qed.

Lemma spaceless_avoids (w : string) : spaceless w = true -> avoids " " w = true.
Proof.
  induction w as [|c w IH]; simpl; [reflexivity|].
  intros H. apply andb_true_iff in H as [Hc Hw].
  rewrite (IH Hw), andb_true_r.
  destruct (Ascii.eqb_spec c " ") as [->|_]; [discriminate|reflexivity].
Qed.

(** The words of a text are not empty and hold no space. *)
Lemma split_words (s w : string) :
  In w (split s) -> spaceless w = true /\ w <> EmptyString.
Proof.
  revert w. induction s as [|c s IH]; intros w; simpl; [tauto|].
  destruct (isspace c) eqn:Ec; [apply IH|].
  destruct (starts_word s).
  - destruct (split s) as [|v vs] eqn:Es.
    + intros [<-|[]]. simpl. now rewrite Ec.
    + intros [<-|H].
      * destruct (IH v (or_introl eq_refl)) as [Hv _].
        simpl. rewrite Ec, Hv. split; [reflexivity|discriminate].
      * apply IH. now right.
  - intros [<-|H]; [|now apply IH].
    simpl. now rewrite Ec.
Qed.

(** A space-free word occurs in the space-joined texts exactly when it
    occurs in one of them. *)
Lemma contains_join_space (w : string) (l : list string) :
  avoids " " w = true -> l <> [] ->
  contains w (join " " l) = existsb (contains w) l.
Proof.
  intros Hw. induction l as [|a l IH]; [congruence|intros _].
  destruct l as [|b l].
  - simpl. now rewrite orb_false_r.
  - change (join " " (a :: b :: l)) with (a ++ " " ++ join " " (b :: l)).
    rewrite (TextFacts.contains_app_space w _ _ Hw), IH by discriminate.
    reflexivity.
Qed.

End TextMore.

(** ** Archetype rule, further *)

Lemma archetype_thresholds_inv (a : ProfileAxes) :
  (determine_archetype a = PURPOSE_DRIVEN_HIGH_ENERGY -> Spec.rule_1 a)
  /\ (determine_archetype a = LOW_ENERGY_WANTS_CHANGE -> Spec.rule_2 a).
Proof.
  pose proof (rule_1_iff a) as H1. pose proof (rule_2_iff a) as H2.
  unfold determine_archetype.
  destruct (_ && Qge_bool (focus_capacity a) 60).
  - split; [intros _; now apply H1|discriminate].
  - destruct (Qlt_bool (habit_foundation a) 40 && _).
    + split; [discriminate|intros _; now apply H2].
    + split; discriminate.
Qed.

(** X1. Each archetype is returned exactly on its own threshold set:
    PURPOSE_DRIVEN_HIGH_ENERGY exactly when rule 1 holds,
    LOW_ENERGY_WANTS_CHANGE exactly when rule 2 holds (rule 1 cannot take
    such axes away, the two sets being disjoint), EXPLORATORY_MODERATE
    exactly when neither holds. *)
Theorem determine_archetype_exact (a : ProfileAxes) :
  (determine_archetype a = PURPOSE_DRIVEN_HIGH_ENERGY <-> Spec.rule_1 a)
  /\ (determine_archetype a = LOW_ENERGY_WANTS_CHANGE <-> Spec.rule_2 a)
  /\ (determine_archetype a = EXPLORATORY_MODERATE
      <-> ~ Spec.rule_1 a /\ ~ Spec.rule_2 a).
Proof.
  pose proof (rule_1_iff a) as H1. pose proof (rule_2_iff a) as H2.
  pose proof (rule_1_rule_2_disjoint a) as D.
  unfold determine_archetype.
  destruct (_ && Qge_bool (focus_capacity a) 60) eqn:E1.
  - assert (R1 : Spec.rule_1 a) by now apply H1.
    split; [|split]; split; intros G; try discriminate; try reflexivity;
      try exact R1; exfalso; tauto.
  - assert (N1 : ~ Spec.rule_1 a) by (intros H; apply H1 in H; discriminate).
    destruct (Qlt_bool (habit_foundation a) 40 && _) eqn:E2.
    + assert (R2 : Spec.rule_2 a) by now apply H2.
      split; [|split]; split; intros G; try discriminate; try reflexivity;
        try exact R2; exfalso; tauto.
    + assert (N2 : ~ Spec.rule_2 a) by (intros H; apply H2 in H; discriminate).
      split; [|split]; split; intros G; try discriminate; try reflexivity;
        try tauto; exfalso; tauto.
Qed.

(** X2. The high-energy archetype is kept when purpose clarity, energy and
    focus capacity do not go down, whatever happens to the other axes. *)
Theorem determine_archetype_high_energy_monotone (a b : ProfileAxes) :
  determine_archetype a = PURPOSE_DRIVEN_HIGH_ENERGY ->
  (purpose_clarity a <= purpose_clarity b)%Q ->
  (energy_chronotype a <= energy_chronotype b)%Q ->
  (focus_capacity a <= focus_capacity b)%Q ->
  determine_archetype b = PURPOSE_DRIVEN_HIGH_ENERGY.
Proof.
  intros Ha Hp He Hf.
  assert (R : Spec.rule_1 a).
  { apply (proj1 (archetype_thresholds_inv a)). exact Ha. }
  destruct R as (Rp & Re & Rf).
  unfold determine_archetype.
  replace (Qge_bool (purpose_clarity b) 60 && Qge_bool (energy_chronotype b) 70
           && Qge_bool (focus_capacity b) 60) with true; [reflexivity|].
  symmetry. apply rule_1_iff. unfold Spec.rule_1.
  split; [|split].
  - exact (Qle_trans _ _ _ Rp Hp).
  - exact (Qle_trans _ _ _ Re He).
  - exact (Qle_trans _ _ _ Rf Hf).
Qed.

Lemma determine_archetype_high_energy_monotone_witness :
  determine_archetype (mkAxes 100 80 75 0 0 0) = PURPOSE_DRIVEN_HIGH_ENERGY.
Proof.
  apply (determine_archetype_high_energy_monotone (mkAxes 60 70 60 50 50 50)).
  - reflexivity.
  - unfold Qle; simpl; lia.
  - unfold Qle; simpl; lia.
  - unfold Qle; simpl; lia.
Defined.

(** ** Scoring: letter case and order of the answers *)

Module ScoringMore.

Import Text Scoring.

Lemma filter_map_length (A B : Type) (f : B -> bool) (g : A -> B) (l : list A) :
  List.length (filter f (map g l))
  = List.length (filter (fun x => f (g x)) l).
Proof.
  induction l as [|x l IH]; [reflexivity|].
  cbn [map filter]. destruct (f (g x)); cbn [List.length]; now rewrite IH.
Qed.

Lemma purpose_lower (q : QuestionnaireResponse) :
  purpose_clarity_value (lower_answers q) = purpose_clarity_value q.
Proof.
  unfold purpose_clarity_value, purpose_score, q2_lower, specific_outcomes,
    outcomes.
  cbn [passionate_problems outcome_1 outcome_2 outcome_3 lower_answers filter].
  rewrite TextMore.lower_idem, !TextMore.split_lower_length.
  destruct (_ >? 3), (_ >? 3), (_ >? 3); reflexivity.
Qed.

Lemma energy_lower (q : QuestionnaireResponse) :
  energy_chronotype_value (lower_answers q) = energy_chronotype_value q.
Proof.
  unfold energy_chronotype_value, energy_score_exact, time_score, avg_hours.
  cbn [chronotype morning_routine morning_routine_duration weekday_hours
         weekend_hours lower_answers].
  now rewrite TextMore.strip_lower, TextMore.truthy_lower.
Qed.

Lemma energy_score_lower_answers (q : QuestionnaireResponse) :
  Scoring.energy_score (lower_answers q) = Scoring.energy_score q.
Proof.
  unfold Scoring.energy_score.
  cbn [chronotype morning_routine morning_routine_duration lower_answers].
  now rewrite TextMore.strip_lower, TextMore.truthy_lower.
Qed.

Lemma focus_lower (q : QuestionnaireResponse) :
  focus_capacity_value (lower_answers q) = focus_capacity_value q.
Proof.
  unfold focus_capacity_value, focus_base, q1_lower, hours_factor, avg_hours,
    distraction_penalty.
  cbn [energizing_activities distractions weekday_hours weekend_hours
         lower_answers].
  now rewrite TextMore.lower_idem, length_map.
Qed.

Lemma habit_lower (q : QuestionnaireResponse) :
  habit_foundation_value (lower_answers q) = habit_foundation_value q.
Proof.
  unfold habit_foundation_value, habit_base, len.
  cbn [habit_count key_habit_change lower_answers].
  now rewrite TextMore.strip_lower, TextMore.length_lower.
Qed.

Lemma outcomes_text_lower (q : QuestionnaireResponse) :
  outcomes_text (lower_answers q) = outcomes_text q.
Proof.
  unfold outcomes_text, outcomes.
  cbn [outcome_1 outcome_2 outcome_3 lower_answers].
  change [lower (outcome_1 q); lower (outcome_2 q); lower (outcome_3 q)]
    with (map lower [outcome_1 q; outcome_2 q; outcome_3 q]).
  now rewrite <- TextMore.lower_join_space, TextMore.lower_idem.
Qed.

Lemma skill_fit_lower (q : QuestionnaireResponse) :
  skill_fit_value (lower_answers q) = skill_fit_value q.
Proof.
  unfold skill_fit_value, skill_base, skill_count.
  rewrite !ScoringFacts.skill_alignment_count.
  cbn [skills lower_answers].
  rewrite length_map, filter_map_length.
  rewrite (filter_ext (fun x => skill_aligned (lower_answers q) (lower x))
             (skill_aligned q)); [reflexivity|].
  intros skill. unfold skill_aligned.
  now rewrite outcomes_text_lower, TextMore.lower_idem.
Qed.

End ScoringMore.

(** X3. For answers written with characters below code point 256 (the
    texts this development covers), the letter case does not count: with
    every text answer put in lower case the scorer gives the same result,
    axes or error. *)
Theorem calculate_profile_axes_case_insensitive (q : QuestionnaireResponse) :
  Scoring.calculate_profile_axes (lower_answers q)
  = Scoring.calculate_profile_axes q.
Proof.
  unfold Scoring.calculate_profile_axes.
  rewrite ScoringMore.energy_score_lower_answers, ScoringMore.purpose_lower,
    ScoringMore.focus_lower, ScoringMore.habit_lower,
    ScoringMore.skill_fit_lower.
  reflexivity.
Qed.

Module OrderFacts.

Import Text Scoring.

Lemma filter_length_perm (A : Type) (f : A -> bool) (l l' : list A) :
  Permutation l l' ->
  List.length (filter f l) = List.length (filter f l').
Proof.
  induction 1 as [|x l l' _ IH|x y l|l l' l'' _ IH1 _ IH2].
  - reflexivity.
  - cbn [filter]. destruct (f x); cbn [List.length]; now rewrite IH.
  - cbn [filter]. destruct (f x), (f y); reflexivity.
  - now rewrite IH1.
Qed.

Lemma existsb_perm (A : Type) (f : A -> bool) (l l' : list A) :
  Permutation l l' -> existsb f l = existsb f l'.
Proof.
  induction 1 as [|x l l' _ IH|x y l|l l' l'' _ IH1 _ IH2].
  - reflexivity.
  - cbn [existsb]. now rewrite IH.
  - cbn [existsb]. destruct (f x), (f y); reflexivity.
  - now rewrite IH1.
Qed.

Lemma existsb_ext_in (A : Type) (f g : A -> bool) (l : list A) :
  (forall x, In x l -> f x = g x) -> existsb f l = existsb g l.
Proof.
  induction l as [|x l IH]; intros H; [reflexivity|].
  cbn [existsb]. rewrite (H x (or_introl eq_refl)), IH; [reflexivity|].
  intros y Hy. apply H. now right.
Qed.

(** A skill is aligned exactly when one of its words occurs in one of the
    three outcomes taken apart. *)
Lemma skill_aligned_apart (q : QuestionnaireResponse) (skill : string) :
  skill_aligned q skill
  = existsb (fun word => existsb (fun o => contains word (lower o)) (outcomes q))
      (split (lower skill)).
Proof.
  unfold skill_aligned. apply existsb_ext_in. intros w Hw.
  apply TextMore.split_words in Hw as [Hw _].
  apply TextMore.spaceless_avoids in Hw.
  unfold outcomes_text. rewrite TextMore.lower_join_space.
  rewrite (TextMore.contains_join_space w _ Hw) by discriminate.
  unfold outcomes. cbn [map existsb]. reflexivity.
Qed.

Lemma specific_outcomes_count (q : QuestionnaireResponse) :
  specific_outcomes q
  = Z.of_nat
      (List.length
         (filter (fun outcome => Z.of_nat (List.length (split outcome)) >? 3)
            (outcomes q))).
Proof.
  unfold specific_outcomes. rewrite ScoringFacts.sum_const. lia.
Qed.

Lemma purpose_outcomes_perm (q : QuestionnaireResponse) (a b c : string) :
  Permutation (outcomes q) [a; b; c] ->
  purpose_clarity_value (with_outcomes q a b c) = purpose_clarity_value q.
Proof.
  intros P. unfold purpose_clarity_value, purpose_score.
  rewrite !specific_outcomes_count.
  change (outcomes (with_outcomes q a b c)) with [a; b; c].
  now rewrite (filter_length_perm _ _ _ _ P).
Qed.

Lemma skill_fit_outcomes_perm (q : QuestionnaireResponse) (a b c : string) :
  Permutation (outcomes q) [a; b; c] ->
  skill_fit_value (with_outcomes q a b c) = skill_fit_value q.
Proof.
  intros P. unfold skill_fit_value, skill_base, skill_count.
  rewrite !ScoringFacts.skill_alignment_count.
  cbn [skills with_outcomes].
  rewrite (filter_ext (skill_aligned (with_outcomes q a b c))
             (skill_aligned q)); [reflexivity|].
  intros skill. rewrite !skill_aligned_apart.
  apply existsb_ext_in. intros w _.
  change (outcomes (with_outcomes q a b c)) with [a; b; c].
  symmetry. now apply existsb_perm.
Qed.

Lemma skill_fit_skills_perm (q : QuestionnaireResponse) (l : list string) :
  Permutation (skills q) l ->
  skill_fit_value (with_skills q l) = skill_fit_value q.
Proof.
  intros P. unfold skill_fit_value, skill_base, skill_count.
  rewrite !ScoringFacts.skill_alignment_count.
  cbn [skills with_skills].
  rewrite <- (Permutation_length P).
  change (skill_aligned (with_skills q l)) with (skill_aligned q).
  now rewrite <- (filter_length_perm _ (skill_aligned q) _ _ P).
Qed.

End OrderFacts.

(** X4. The scorer does not look at the order of the answers: the skills in
    another order, the three outcomes in another order, or other distractions
    in the same number give the same result, axes or error. *)
Theorem calculate_profile_axes_order_independent (q : QuestionnaireResponse) :
  (forall l, Permutation (skills q) l ->
             Scoring.calculate_profile_axes (with_skills q l)
             = Scoring.calculate_profile_axes q)
  /\ (forall a b c,
         Permutation [outcome_1 q; outcome_2 q; outcome_3 q] [a; b; c] ->
         Scoring.calculate_profile_axes (with_outcomes q a b c)
         = Scoring.calculate_profile_axes q)
  /\ (forall l, List.length l = List.length (distractions q) ->
                Scoring.calculate_profile_axes (with_distractions q l)
                = Scoring.calculate_profile_axes q).
Proof.
  split; [|split].
  - intros l P. unfold Scoring.calculate_profile_axes.
    rewrite (OrderFacts.skill_fit_skills_perm q l P). reflexivity.
  - intros a b c P. unfold Scoring.calculate_profile_axes.
    rewrite (OrderFacts.purpose_outcomes_perm q a b c P),
      (OrderFacts.skill_fit_outcomes_perm q a b c P).
    reflexivity.
  - intros l E. unfold Scoring.calculate_profile_axes.
    assert (F : Scoring.focus_capacity_value (with_distractions q l)
                = Scoring.focus_capacity_value q).
    { unfold Scoring.focus_capacity_value, Scoring.distraction_penalty.
      cbn [distractions with_distractions]. now rewrite E. }
    rewrite F. reflexivity.
Qed.

Lemma calculate_profile_axes_order_independent_witness :
  Scoring.calculate_profile_axes
    (with_skills Samples.test_questionnaire
       ["Teaching"; "Programming/Coding"; "Design"])
  = Scoring.calculate_profile_axes Samples.test_questionnaire
  /\ Scoring.calculate_profile_axes
       (with_outcomes Samples.test_questionnaire
          (outcome_2 Samples.test_questionnaire)
          (outcome_3 Samples.test_questionnaire)
          (outcome_1 Samples.test_questionnaire))
     = Scoring.calculate_profile_axes Samples.test_questionnaire
  /\ Scoring.calculate_profile_axes
       (with_distractions Samples.test_questionnaire ["TV"; "Games"; "News"])
     = Scoring.calculate_profile_axes Samples.test_questionnaire.
Proof.
  destruct (calculate_profile_axes_order_independent Samples.test_questionnaire)
    as (Hs & Ho & Hd).
  split; [|split].
  - apply Hs. simpl.
    apply (Permutation_trans (perm_skip _ (perm_swap _ _ _))).
    apply perm_swap.
  - apply Ho. simpl.
    apply (Permutation_trans (perm_swap _ _ _)).
    apply perm_skip. apply perm_swap.
  - apply Hd. reflexivity.
Defined.

(** ** Scoring and archetype together *)

Module BoundFacts.

Import Text Scoring.

Lemma inject_Z_lt_inv (a b : Z) : (inject_Z a < inject_Z b)%Q -> a < b.
Proof. intros H. now rewrite Zlt_Qlt. Qed.

Lemma inject_Z_le_inv (a b : Z) : (inject_Z a <= inject_Z b)%Q -> a <= b.
Proof. intros H. now rewrite Zle_Qle. Qed.

Lemma Qmin_lt_inv (c x t : Q) : (t <= c -> Qmin c x < t -> x < t)%Q.
Proof.
  intros Hc H. apply Q.min_lt_iff in H as [H|H]; [|exact H].
  exfalso. apply (Qlt_not_le _ _ H Hc).
Qed.

Lemma Qmin_ge_inv (c x t : Q) : (t <= Qmin c x -> t <= x)%Q.
Proof. intros H. now apply Q.min_glb_iff in H. Qed.

Lemma Qmax_ge_inv (x t : Q) : (0 < t -> t <= Qmax 0 x -> t <= x)%Q.
Proof.
  intros Ht H. apply Q.max_le_iff in H as [H|H]; [|exact H].
  exfalso. apply (Qlt_not_le _ _ Ht H).
Qed.

(** The routine bonus that [energy_score_exact] adds to the chronotype score. *)
Lemma energy_score_cases (q : QuestionnaireResponse) :
  (energy_score_exact q = inject_Z (chronotype_scores (chronotype q)))
  \/ exists d,
       morning_routine_duration q = Some d
       /\ d <> 0
       /\ strip (morning_routine q) <> EmptyString
       /\ energy_score_exact q
          = (inject_Z (chronotype_scores (chronotype q))
             + Qmin 20 (inject_Z d / 2))%Q.
Proof.
  unfold energy_score_exact.
  destruct (morning_routine_duration q) as [d|]; [|now left].
  destruct (strip (morning_routine q)) as [|c r] eqn:E; [now left|].
  cbn [truthy andb]. destruct (Z.eqb_spec d 0) as [->|Hd]; [now left|].
  right. exists d. repeat split; trivial. discriminate.
Qed.

Lemma energy_score_ge_base (q : QuestionnaireResponse) :
  match morning_routine_duration q with
  | Some d => 0 <= d
  | None => True
  end ->
  (inject_Z (chronotype_scores (chronotype q)) <= energy_score_exact q)%Q.
Proof.
  intros Hd.
  destruct (energy_score_cases q) as [->|(d & Ed & _ & _ & ->)];
    [apply Qle_refl|].
  rewrite Ed in Hd.
  pose proof (ScoringFacts.Qmin_nonneg 20 (inject_Z d / 2)
                ltac:(discriminate) (ScoringFacts.half_nonneg d Hd)).
  lra.
Qed.

Lemma time_score_le_30 (q : QuestionnaireResponse) : (time_score q <= 30)%Q.
Proof. apply Q.le_min_l. Qed.

Lemma hours_factor_le_40 (q : QuestionnaireResponse) : (hours_factor q <= 40)%Q.
Proof. apply Q.le_min_l. Qed.

Lemma filter_length_le (A : Type) (f : A -> bool) (l : list A) :
  (List.length (filter f l) <= List.length l)%nat.
Proof.
  induction l as [|x l IH]; [reflexivity|].
  cbn [filter]. destruct (f x); cbn [List.length]; lia.
Qed.

End BoundFacts.

(** X5. On a structurally valid questionnaire the low-energy archetype is
    given only to an evening or night chronotype whose habit count is "0", or
    "1-2" with a key habit change of at most ten characters once trimmed. *)
Theorem low_energy_needs_late_chronotype_and_few_habits
    (q : QuestionnaireResponse) (a : ProfileAxes) :
  Spec.structurally_valid q ->
  Scoring.calculate_profile_axes q = Ok a ->
  determine_archetype a = LOW_ENERGY_WANTS_CHANGE ->
  (chronotype q = EVENING \/ chronotype q = NIGHT)
  /\ (habit_count q = ZERO
      \/ (habit_count q = ONE_TO_TWO
          /\ Text.len (Text.strip (key_habit_change q)) <= 10)).
Proof.
  intros (Hwd & Hwe & Hd & _) Ha Hl.
  apply ScoringFacts.calculate_profile_axes_inv in Ha. subst a.
  apply (proj2 (archetype_thresholds_inv _)) in Hl.
  destruct Hl as [Hh He]. cbn [habit_foundation energy_chronotype
    Scoring.computed_axes] in Hh, He.
  split.
  - unfold Scoring.energy_chronotype_value in He.
    apply BoundFacts.Qmin_lt_inv in He; [|discriminate].
    pose proof (BoundFacts.energy_score_ge_base q Hd) as Hb.
    pose proof (ScoringFacts.time_score_nonneg q Hwd Hwe) as Ht.
    assert (Hc : (inject_Z (Scoring.chronotype_scores (chronotype q))
                  < inject_Z 60)%Q) by (change (inject_Z 60) with 60%Q; lra).
    apply BoundFacts.inject_Z_lt_inv in Hc.
    destruct (chronotype q); cbn in Hc; try lia; auto.
  - apply (BoundFacts.inject_Z_lt_inv _ 40) in Hh.
    unfold Scoring.habit_foundation_value, Scoring.habit_base in Hh.
    destruct (Z.gtb_spec (Text.len (Text.strip (key_habit_change q))) 10);
      destruct (habit_count q); cbn in Hh; try lia; auto.
Qed.

Lemma low_energy_needs_late_chronotype_and_few_habits_witness :
  (chronotype Samples.scenario_C = EVENING
   \/ chronotype Samples.scenario_C = NIGHT)
  /\ (habit_count Samples.scenario_C = ZERO
      \/ (habit_count Samples.scenario_C = ONE_TO_TWO
          /\ Text.len (Text.strip (key_habit_change Samples.scenario_C)) <= 10)).
Proof.
  apply (low_energy_needs_late_chronotype_and_few_habits Samples.scenario_C
           (Scoring.computed_axes Samples.scenario_C)).
  - unfold Spec.structurally_valid, Qle; simpl. lia.
  - vm_compute. reflexivity.
  - vm_compute. reflexivity.
Defined.

(** X6. The high-energy archetype is given only when at least one purpose
    keyword occurs in the passionate problems, at least two focus keywords
    occur in the energizing activities and at most 17 distractions are
    listed; a night chronotype gets it only with a morning routine whose
    description is not blank and whose duration is at least 20 minutes. *)
Theorem high_energy_needs_keywords
    (q : QuestionnaireResponse) (a : ProfileAxes) :
  Scoring.calculate_profile_axes q = Ok a ->
  determine_archetype a = PURPOSE_DRIVEN_HIGH_ENERGY ->
  (1 <= List.length (Spec.matching Scoring.purpose_keywords
                       (passionate_problems q)))%nat
  /\ (2 <= List.length (Spec.matching Scoring.focus_keywords
                          (energizing_activities q)))%nat
  /\ (List.length (distractions q) <= 17)%nat
  /\ (chronotype q = NIGHT ->
      exists d, morning_routine_duration q = Some d
                /\ 20 <= d
                /\ Text.strip (morning_routine q) <> EmptyString).
Proof.
  intros Ha Hp.
  apply ScoringFacts.calculate_profile_axes_inv in Ha. subst a.
  apply (proj1 (archetype_thresholds_inv _)) in Hp.
  destruct Hp as (Hpc & Hec & Hfc).
  cbn [purpose_clarity energy_chronotype focus_capacity
         Scoring.computed_axes] in Hpc, Hec, Hfc.
  split; [|split; [|split]].
  - apply (BoundFacts.inject_Z_le_inv 60) in Hpc.
    unfold Scoring.purpose_clarity_value in Hpc.
    rewrite KeywordFacts.purpose_score_matching,
      OrderFacts.specific_outcomes_count in Hpc.
    pose proof (BoundFacts.filter_length_le _
                  (fun outcome =>
                     Z.of_nat (List.length (Text.split outcome)) >? 3)
                  (Scoring.outcomes q)) as Hl.
    cbn [List.length Scoring.outcomes] in Hl. lia.
  - unfold Scoring.focus_capacity_value in Hfc.
    apply BoundFacts.Qmin_ge_inv, BoundFacts.Qmax_ge_inv in Hfc;
      [|reflexivity].
    pose proof (BoundFacts.hours_factor_le_40 q) as Hh.
    assert (Hz : (inject_Z 20
                  <= inject_Z (Scoring.focus_base q
                               - Scoring.distraction_penalty q))%Q).
    { unfold Z.sub. rewrite inject_Z_plus, inject_Z_opp.
      change (inject_Z 20) with 20%Q. lra. }
    apply BoundFacts.inject_Z_le_inv in Hz.
    rewrite KeywordFacts.focus_base_matching in Hz.
    unfold Scoring.distraction_penalty in Hz. lia.
  - unfold Scoring.focus_capacity_value in Hfc.
    apply BoundFacts.Qmin_ge_inv, BoundFacts.Qmax_ge_inv in Hfc;
      [|reflexivity].
    pose proof (BoundFacts.hours_factor_le_40 q) as Hh.
    assert (Hz : (inject_Z 20
                  <= inject_Z (Scoring.focus_base q
                               - Scoring.distraction_penalty q))%Q).
    { unfold Z.sub. rewrite inject_Z_plus, inject_Z_opp.
      change (inject_Z 20) with 20%Q. lra. }
    apply BoundFacts.inject_Z_le_inv in Hz.
    rewrite KeywordFacts.focus_base_matching in Hz.
    pose proof (BoundFacts.filter_length_le _
                  (fun keyword => Spec.occurs_ci keyword
                                    (energizing_activities q))
                  Scoring.focus_keywords) as Hl.
    change (filter _ Scoring.focus_keywords)
      with (Spec.matching Scoring.focus_keywords (energizing_activities q))
      in Hl.
    cbn [List.length Scoring.focus_keywords] in Hl.
    unfold Scoring.distraction_penalty in Hz. lia.
  - intros Hn.
    unfold Scoring.energy_chronotype_value in Hec.
    apply BoundFacts.Qmin_ge_inv in Hec.
    pose proof (BoundFacts.time_score_le_30 q) as Ht.
    destruct (BoundFacts.energy_score_cases q)
      as [E|(d & Ed & _ & Hs & E)]; rewrite E, Hn in Hec;
      cbn [Scoring.chronotype_scores] in Hec;
      change (inject_Z 30) with 30%Q in Hec.
    + exfalso. lra.
    + exists d. split; [exact Ed|]. split; [|exact Hs].
      assert (H10 : (10 <= Qmin 20 (inject_Z d / 2))%Q) by lra.
      apply BoundFacts.Qmin_ge_inv in H10.
      assert (H20 : (inject_Z 20 <= inject_Z d)%Q).
      { change (inject_Z 20) with 20%Q.
        unfold Qdiv in H10.
        setoid_replace (/ 2)%Q with (1 # 2)%Q in H10 by reflexivity.
        lra. }
      now apply BoundFacts.inject_Z_le_inv.
Qed.

Lemma high_energy_needs_keywords_witness :
  (1 <= List.length (Spec.matching Scoring.purpose_keywords
                       (passionate_problems Samples.test_questionnaire)))%nat
  /\ (2 <= List.length (Spec.matching Scoring.focus_keywords
                          (energizing_activities Samples.test_questionnaire)))%nat
  /\ (List.length (distractions Samples.test_questionnaire) <= 17)%nat
  /\ (chronotype Samples.test_questionnaire = NIGHT ->
      exists d, morning_routine_duration Samples.test_questionnaire = Some d
                /\ 20 <= d
                /\ Text.strip (morning_routine Samples.test_questionnaire)
                   <> EmptyString).
Proof.
  apply (high_energy_needs_keywords Samples.test_questionnaire
           (Scoring.computed_axes Samples.test_questionnaire)).
  - vm_compute. reflexivity.
  - vm_compute. reflexivity.
Defined.

(** ** Scoring: how the axes move with the answers *)

Module MonotoneFacts.

Import Text Scoring.

(** The cut to the interval from 0 to 100. *)
Lemma clamp_cases (x : Q) :
  ((x <= 0 /\ Qmin 100 (Qmax 0 x) == 0)
   \/ (0 <= x <= 100 /\ Qmin 100 (Qmax 0 x) == x)
   \/ (100 <= x /\ Qmin 100 (Qmax 0 x) == 100))%Q.
Proof.
  destruct (Qlt_le_dec x 0) as [H0|H0].
  - left. split; [lra|].
    rewrite (Q.max_l 0 x) by lra. now rewrite Q.min_r by lra.
  - rewrite (Q.max_r 0 x) by lra.
    destruct (Qlt_le_dec x 100) as [H1|H1].
    + right; left. split; [lra|]. now rewrite Q.min_r by lra.
    + right; right. split; [lra|]. now rewrite Q.min_l by lra.
Qed.

Lemma clamp_monotone (x y : Q) :
  (x <= y -> Qmin 100 (Qmax 0 x) <= Qmin 100 (Qmax 0 y))%Q.
Proof.
  intros H.
  destruct (clamp_cases x) as [[? E]|[[? E]|[? E]]];
    destruct (clamp_cases y) as [[? F]|[[? F]|[? F]]];
    rewrite E, F; lra.
Qed.

Lemma clamp_step (x y k : Q) :
  (0 <= k -> x <= y + k ->
   Qmin 100 (Qmax 0 x) <= Qmin 100 (Qmax 0 y) + k)%Q.
Proof.
  intros Hk H.
  destruct (clamp_cases x) as [[? E]|[[? E]|[? E]]];
    destruct (clamp_cases y) as [[? F]|[[? F]|[? F]]];
    rewrite E, F; lra.
Qed.

Lemma cap_monotone (c x y : Q) : (x <= y -> Qmin c x <= Qmin c y)%Q.
Proof. intros H. now apply Q.min_le_compat_l. Qed.

Lemma avg_hours_monotone (q : QuestionnaireResponse) (weekday weekend : Q) :
  (weekday_hours q <= weekday -> weekend_hours q <= weekend ->
   avg_hours q <= avg_hours (with_hours q weekday weekend))%Q.
Proof.
  intros Hd He. unfold avg_hours. cbn [weekday_hours weekend_hours with_hours].
  unfold Qdiv. setoid_replace (/ 7)%Q with (1 # 7)%Q by reflexivity. lra.
Qed.

End MonotoneFacts.

(** X7. One more distraction never raises the focus capacity and lowers it
    by at most 5; the other five axes stay as they are. *)
Theorem one_more_distraction (q : QuestionnaireResponse) (d : string)
    (a a' : ProfileAxes) :
  Scoring.calculate_profile_axes q = Ok a ->
  Scoring.calculate_profile_axes (with_distractions q (d :: distractions q))
  = Ok a' ->
  (focus_capacity a' <= focus_capacity a
   /\ focus_capacity a <= focus_capacity a' + 5)%Q
  /\ purpose_clarity a' = purpose_clarity a
  /\ energy_chronotype a' = energy_chronotype a
  /\ habit_foundation a' = habit_foundation a
  /\ mindset a' = mindset a
  /\ skill_fit a' = skill_fit a.
Proof.
  intros Ha Ha'.
  apply ScoringFacts.calculate_profile_axes_inv in Ha, Ha'. subst a a'.
  split; [|repeat split].
  cbn [focus_capacity Scoring.computed_axes].
  unfold Scoring.focus_capacity_value.
  change (Scoring.focus_base (with_distractions q (d :: distractions q)))
    with (Scoring.focus_base q).
  change (Scoring.hours_factor (with_distractions q (d :: distractions q)))
    with (Scoring.hours_factor q).
  assert (P : (inject_Z (Scoring.distraction_penalty
                           (with_distractions q (d :: distractions q)))
               == inject_Z (Scoring.distraction_penalty q) + 5)%Q).
  { unfold Scoring.distraction_penalty.
    cbn [distractions with_distractions List.length].
    rewrite Nat2Z.inj_succ, <- Z.add_1_r, Z.mul_add_distr_r.
    rewrite inject_Z_plus. reflexivity. }
  split.
  - apply MonotoneFacts.clamp_monotone. lra.
  - apply MonotoneFacts.clamp_step; lra.
Qed.

Lemma one_more_distraction_witness :
  exists a a' : ProfileAxes,
    Scoring.calculate_profile_axes Samples.test_questionnaire = Ok a
    /\ Scoring.calculate_profile_axes
         (with_distractions Samples.test_questionnaire
            ("Television" :: distractions Samples.test_questionnaire))
       = Ok a'
    /\ (focus_capacity a' <= focus_capacity a
        /\ focus_capacity a <= focus_capacity a' + 5)%Q.
Proof.
  eexists. eexists. split; [vm_compute; reflexivity|].
  split; [vm_compute; reflexivity|].
  refine (proj1 (one_more_distraction Samples.test_questionnaire "Television"
                   _ _ _ _)); vm_compute; reflexivity.
Defined.

(** X8. More hours, on weekdays or at the weekend, never lower the energy
    and focus axes; the other four axes stay as they are. *)
Theorem more_hours_never_lower (q : QuestionnaireResponse) (weekday weekend : Q)
    (a a' : ProfileAxes) :
  (weekday_hours q <= weekday)%Q ->
  (weekend_hours q <= weekend)%Q ->
  Scoring.calculate_profile_axes q = Ok a ->
  Scoring.calculate_profile_axes (with_hours q weekday weekend) = Ok a' ->
  (energy_chronotype a <= energy_chronotype a')%Q
  /\ (focus_capacity a <= focus_capacity a')%Q
  /\ purpose_clarity a' = purpose_clarity a
  /\ habit_foundation a' = habit_foundation a
  /\ mindset a' = mindset a
  /\ skill_fit a' = skill_fit a.
Proof.
  intros Hd He Ha Ha'.
  apply ScoringFacts.calculate_profile_axes_inv in Ha, Ha'. subst a a'.
  pose proof (MonotoneFacts.avg_hours_monotone q weekday weekend Hd He) as Hm.
  split; [|split; [|repeat split]].
  - cbn [energy_chronotype Scoring.computed_axes].
    unfold Scoring.energy_chronotype_value.
    change (Scoring.energy_score_exact (with_hours q weekday weekend))
      with (Scoring.energy_score_exact q).
    apply MonotoneFacts.cap_monotone.
    apply Qplus_le_r. unfold Scoring.time_score.
    apply MonotoneFacts.cap_monotone. lra.
  - cbn [focus_capacity Scoring.computed_axes].
    unfold Scoring.focus_capacity_value.
    change (Scoring.focus_base (with_hours q weekday weekend))
      with (Scoring.focus_base q).
    change (Scoring.distraction_penalty (with_hours q weekday weekend))
      with (Scoring.distraction_penalty q).
    apply MonotoneFacts.clamp_monotone.
    assert (Hh : (Scoring.hours_factor q
                  <= Scoring.hours_factor (with_hours q weekday weekend))%Q).
    { unfold Scoring.hours_factor. apply MonotoneFacts.cap_monotone. lra. }
    lra.
Qed.

Lemma more_hours_never_lower_witness :
  exists a a' : ProfileAxes,
    Scoring.calculate_profile_axes Samples.scenario_C = Ok a
    /\ Scoring.calculate_profile_axes (with_hours Samples.scenario_C 3 5)
       = Ok a'
    /\ (energy_chronotype a <= energy_chronotype a')%Q
    /\ (focus_capacity a <= focus_capacity a')%Q.
Proof.
  eexists. eexists. split; [vm_compute; reflexivity|].
  split; [vm_compute; reflexivity|].
  assert (H := more_hours_never_lower Samples.scenario_C 3 5
                 (Scoring.computed_axes Samples.scenario_C)
                 (Scoring.computed_axes (with_hours Samples.scenario_C 3 5))).
  destruct H as (H1 & H2 & _).
  - unfold Qle; simpl; lia.
  - unfold Qle; simpl; lia.
  - vm_compute; reflexivity.
  - vm_compute; reflexivity.
  - split; [exact H1|exact H2].
Defined.

(** ** Plan synthesis, further *)

(** X9. Every plan returned has exactly three pillars and a habit stack of
    exactly two entries, the first being the fixed "Morning Startup" entry;
    the second is named after the first word of the key habit change, a word
    that is not empty and holds no white space, and its action quotes the
    key habit change as it was typed; the monthly, weekly and daily templates
    are the same for every archetype. *)
Theorem generate_plan_template_shape (p : UserProfile) (plan : PlanTemplate) :
  Plan.generate_plan_template p = Ok plan ->
  List.length (pillars plan) = 3%nat
  /\ (exists word rest second,
         Text.split (key_habit_change (questionnaire p)) = word :: rest
         /\ word <> EmptyString
         /\ TextAux.spaceless word = true
         /\ habit_stack plan
            = [mkHabitStack "Morning Startup" "After waking up"
                 "Drink water + 5-minute planning" "Favorite morning beverage"
                 "Daily checkbox";
               second]
         /\ name second = word ++ " Practice"
         /\ action second
            = "10 minutes of " ++ key_habit_change (questionnaire p)
         /\ reward second = "Track progress + celebration"
         /\ tracking second = "Weekly streak counter")
  /\ monthly_template plan
     = "Monthly theme focus with weekly milestones and habit tracking"
  /\ weekly_template plan
     = "Weekly planning with 2-3 focus sessions and daily micro-habits"
  /\ daily_template plan
     = "Morning routine → Deep work/practice → Evening reflection".
Proof.
  intros H. unfold Plan.generate_plan_template in H.
  destruct (Text.split (key_habit_change (questionnaire p))) as [|w ws] eqn:S;
    [destruct (Plan.base_template _ _) as [[? ?] ?]; discriminate|].
  assert (Hw : TextAux.spaceless w = true /\ w <> EmptyString).
  { apply (TextMore.split_words (key_habit_change (questionnaire p))).
    rewrite S. now left. }
  destruct Hw as [Hw1 Hw2].
  destruct (archetype p); cbn in H; injection H as <-; cbn;
    (split; [reflexivity|]);
    (split; [|repeat split]);
    eexists w, ws, _; repeat split; trivial.
Qed.

Lemma generate_plan_template_shape_witness :
  exists plan : PlanTemplate,
    Plan.generate_plan_template
      (Samples.stored_profile Samples.test_questionnaire) = Ok plan
    /\ List.length (pillars plan) = 3%nat
    /\ List.length (habit_stack plan) = 2%nat.
Proof.
  eexists. split; [reflexivity|].
  destruct (generate_plan_template_shape
              (Samples.stored_profile Samples.test_questionnaire) _ eq_refl)
    as (H3 & (w & r & s & _ & _ & _ & Hs & _) & _).
  split; [exact H3|]. rewrite Hs. reflexivity.
Defined.

(** X10. Plan synthesis has one failure only: it returns a plan when the key
    habit change holds a word, and raises [IndexError] when it is empty or
    blank; nothing else is ever raised. *)
Theorem generate_plan_template_outcome (p : UserProfile) :
  (Text.blank (key_habit_change (questionnaire p)) = false
   /\ exists plan, Plan.generate_plan_template p = Ok plan)
  \/ (Text.blank (key_habit_change (questionnaire p)) = true
      /\ Plan.generate_plan_template p = Raised IndexError).
Proof.
  destruct (Text.blank (key_habit_change (questionnaire p))) eqn:B.
  - right. split; [reflexivity|].
    unfold Plan.generate_plan_template.
    destruct (Plan.base_template _ _) as [[goal pl] blocks].
    now rewrite (TextFacts.split_blank _ B).
  - left. split; [reflexivity|].
    now apply PlanFacts.generate_plan_template_ok_iff.
Qed.

(** X11. A plan is a function of the archetype, the first outcome, the first
    skill, the key habit change and the purpose and energy axes: two profiles
    that agree on these get the same result; and all of a plan but its
    justification is independent of the axes. *)
Theorem generate_plan_template_reads (p p' : UserProfile) :
  archetype p = archetype p' ->
  outcome_1 (questionnaire p) = outcome_1 (questionnaire p') ->
  hd_error (skills (questionnaire p)) = hd_error (skills (questionnaire p')) ->
  key_habit_change (questionnaire p) = key_habit_change (questionnaire p') ->
  (purpose_clarity (axes p) = purpose_clarity (axes p')
   /\ energy_chronotype (axes p) = energy_chronotype (axes p') ->
   Plan.generate_plan_template p = Plan.generate_plan_template p')
  /\ (forall plan plan',
         Plan.generate_plan_template p = Ok plan ->
         Plan.generate_plan_template p' = Ok plan' ->
         yearly_goal plan = yearly_goal plan'
         /\ pillars plan = pillars plan'
         /\ habit_stack plan = habit_stack plan'
         /\ suggested_time_blocks plan = suggested_time_blocks plan').
Proof.
  intros Ha Ho Hs Hk.
  assert (B : Plan.base_template (archetype p) (questionnaire p)
              = Plan.base_template (archetype p') (questionnaire p')).
  { rewrite <- Ha. unfold Plan.base_template. rewrite Ho, Hk.
    destruct (skills (questionnaire p)) as [|s l],
      (skills (questionnaire p')) as [|s' l']; cbn in Hs;
      try discriminate; [reflexivity|].
    now injection Hs as ->. }
  split.
  - intros [Hp He]. unfold Plan.generate_plan_template.
    now rewrite B, Hk, Ha, Hp, He.
  - intros plan plan'. unfold Plan.generate_plan_template.
    rewrite B, Hk. clear B.
    destruct (Plan.base_template (archetype p') (questionnaire p'))
      as [[goal pl] blocks].
    destruct (Plan.index _ 0) as [first_word|e]; cbn [Plan.bind];
      [|intros [=]].
    destruct (if Z.of_nat (List.length blocks) >? 1
              then Plan.bind (Plan.index blocks 1)
                     (fun block => Ok (activity block))
              else Ok "dinner") as [after|e]; cbn [Plan.bind];
      [|intros [=]].
    intros H1 H2. inversion H1. inversion H2. subst. cbn. repeat split.
Qed.

Lemma generate_plan_template_reads_witness :
  Plan.generate_plan_template
    (mkProfile "a" Samples.test_questionnaire (mkAxes 85 100 0 0 0 0)
       PURPOSE_DRIVEN_HIGH_ENERGY "t1")
  = Plan.generate_plan_template
      (mkProfile "b"
         (with_distractions
            (with_skills Samples.test_questionnaire ["Programming/Coding"])
            [])
         (mkAxes 85 100 70 80 100 60) PURPOSE_DRIVEN_HIGH_ENERGY "t2").
Proof.
  apply generate_plan_template_reads; try reflexivity.
  split; reflexivity.
Defined.

(** ** API routes *)

Module ApiFacts.

Import UserPlanRecord Api ApiRuns.

Local Open Scope list_scope.

Lemma find_app (A : Type) (f : A -> bool) (l l' : list A) :
  find f (l ++ l')
  = match find f l with
    | Some x => Some x
    | None => find f l'
    end.
Proof.
  induction l as [|x l IH]; [reflexivity|].
  cbn [app find]. now destruct (f x).
Qed.

Lemma find_profile_app (pid : string) (profiles extra : list UserProfile)
    (plans plans' : list UserPlan) (p : UserProfile) :
  find_profile pid (mkDatabase profiles plans) = Some p ->
  find_profile pid (mkDatabase (profiles ++ extra) plans') = Some p.
Proof.
  unfold find_profile. cbn [user_profiles]. intros H.
  now rewrite find_app, H.
Qed.

Lemma find_profile_In (pid : string) (db : Database) (p : UserProfile) :
  find_profile pid db = Some p ->
  In p (user_profiles db) /\ UserProfile_id p = pid.
Proof.
  intros H. apply find_some in H as [Hin He].
  split; [exact Hin|]. now apply String.eqb_eq.
Qed.

Lemma find_plan_In (pid : string) (db : Database) (up : UserPlan) :
  find_plan pid db = Some up ->
  In up (user_plans db) /\ profile_id up = pid.
Proof.
  intros H. apply find_some in H as [Hin He].
  split; [exact Hin|]. now apply String.eqb_eq.
Qed.

(** The two ways out of POST /questionnaire: the profile of the scorer's
    axes is stored and returned, or 500 is answered and nothing is stored. *)
Lemma submit_questionnaire_cases (new_id now : string)
    (q : QuestionnaireResponse) (db : Database) :
  (exists a,
      Scoring.calculate_profile_axes q = Ok a
      /\ profile_encodable (mkProfile new_id q a (determine_archetype a) now)
         = true
      /\ submit_questionnaire new_id now q db
         = (Returned (mkProfile new_id q a (determine_archetype a) now),
            mkDatabase
              (user_profiles db
               ++ [mkProfile new_id q a (determine_archetype a) now])
              (user_plans db)))
  \/ submit_questionnaire new_id now q db
     = (HTTPException 500 "Error processing questionnaire", db).
Proof.
  unfold submit_questionnaire.
  destruct (Scoring.calculate_profile_axes q) as [a|e]; [|now right].
  destruct (profile_encodable _) eqn:E; [|now right].
  left. exists a. repeat split; trivial.
Qed.

(** A request only ever appends to the two collections. *)
Lemma step_appends (db : Database) (r : Request) :
  exists profiles plans,
    user_profiles (step db r) = user_profiles db ++ profiles
    /\ user_plans (step db r) = user_plans db ++ plans.
Proof.
  destruct r as [i n q|pid|i n pid|pid]; cbn [step].
  - destruct (submit_questionnaire_cases i n q db) as [(a & _ & _ & ->)| ->];
      cbn [snd].
    + eexists. exists []. cbn. split; [reflexivity|now rewrite app_nil_r].
    + exists [], []. now rewrite !app_nil_r.
  - exists [], []. now rewrite !app_nil_r.
  - unfold generate_plan.
    destruct (find_profile pid db) as [p|]; cbn [snd];
      [|exists [], []; now rewrite !app_nil_r].
    destruct (UserProfile_validates p);
      [|exists [], []; now rewrite !app_nil_r].
    destruct (Plan.generate_plan_template p); cbn [snd].
    + exists []. eexists. cbn. split; [now rewrite app_nil_r|reflexivity].
    + exists [], []. now rewrite !app_nil_r.
  - exists [], []. now rewrite !app_nil_r.
Qed.

Lemma run_appends (rs : list Request) (db : Database) :
  exists profiles plans,
    user_profiles (run db rs) = user_profiles db ++ profiles
    /\ user_plans (run db rs) = user_plans db ++ plans.
Proof.
  revert db. induction rs as [|r rs IH]; intros db.
  - exists [], []. cbn. now rewrite !app_nil_r.
  - cbn [run fold_left].
    destruct (step_appends db r) as (l1 & m1 & E1 & F1).
    destruct (IH (step db r)) as (l2 & m2 & E2 & F2).
    exists (l1 ++ l2), (m1 ++ m2). unfold run in E2, F2.
    now rewrite E2, F2, E1, F1, !app_assoc.
Qed.

Lemma step_consistent (db : Database) (r : Request) :
  wellformed r -> consistent db -> consistent (step db r).
Proof.
  intros Hw [HP HU].
  destruct r as [i n q|pid|i n pid|pid]; cbn [step]; try (now split).
  - destruct (submit_questionnaire_cases i n q db) as [(a & E & _ & ->)| ->];
      cbn [snd]; [|now split].
    split.
    + cbn [user_profiles]. intros p Hp. apply in_app_or in Hp as [Hp|[<-|[]]];
        [now apply HP|].
      cbn [questionnaire axes archetype]. repeat split; trivial.
      unfold UserProfile_validates. cbn [questionnaire axes].
      cbn [wellformed] in Hw.
      pose proof (calculate_profile_axes_range _ _ E) as R.
      unfold Spec.axes_in_range in R.
      rewrite !andb_true_iff, !Z.leb_le, !ScoringFacts.in_unit_range_iff.
      tauto.
    + cbn [user_plans]. intros up Hup.
      destruct (HU up Hup) as (p & Hf & Hg).
      exists p. split; [|exact Hg].
      destruct db as [profiles plans].
      now apply (find_profile_app _ profiles _ plans plans).
  - unfold generate_plan.
    destruct (find_profile pid db) as [p|] eqn:F; cbn [snd]; [|now split].
    destruct (UserProfile_validates p); [|now split].
    destruct (Plan.generate_plan_template p) as [t|e] eqn:G;
      cbn [snd]; [|now split].
    split; [exact HP|].
    cbn [user_plans]. intros up Hup.
    apply in_app_or in Hup as [Hup|[<-|[]]].
    + destruct (HU up Hup) as (p' & Hf & Hg). exists p'. now split.
    + exists p. cbn [profile_id plan]. now split.
Qed.

Lemma run_consistent (rs : list Request) (db : Database) :
  Forall wellformed rs -> consistent db -> consistent (run db rs).
Proof.
  revert db. induction rs as [|r rs IH]; intros db Hw Hc; [exact Hc|].
  cbn [run fold_left]. inversion Hw; subst.
  apply IH; [assumption|]. now apply step_consistent.
Qed.

Lemma empty_consistent : consistent empty.
Proof. split; intros ? []. Qed.

(** The profiles of a run carry identifiers drawn during the run. *)
Lemma run_profile_ids (rs : list Request) (db : Database) (p : UserProfile) :
  In p (user_profiles (run db rs)) ->
  In p (user_profiles db) \/ In (UserProfile_id p) (submitted_ids rs).
Proof.
  revert db. induction rs as [|r rs IH]; intros db H; [now left|].
  cbn [run fold_left] in H. apply IH in H as [H|H].
  - destruct r as [i n q|pid|i n pid|pid]; cbn [step] in H;
      cbn [submitted_ids]; auto.
    + destruct (submit_questionnaire_cases i n q db)
        as [(a & _ & _ & E)|E]; rewrite E in H; cbn [snd] in H; auto.
      cbn [user_profiles] in H. apply in_app_or in H as [H|[<-|[]]]; auto.
      right. now left.
    + unfold generate_plan in H.
      destruct (find_profile pid db) as [p'|]; cbn [snd] in H; auto.
      destruct (UserProfile_validates p'); auto.
      destruct (Plan.generate_plan_template p'); cbn [snd] in H; auto.
  - right. destruct r; cbn [submitted_ids]; auto. now right.
Qed.

End ApiFacts.

Lemma generate_plan_template_blank_habit_lemma (p : UserProfile) :
  Text.blank (key_habit_change (questionnaire p)) = true ->
  Plan.generate_plan_template p = Raised IndexError.
Proof.
  intros Hb. unfold Plan.generate_plan_template.
  destruct (Plan.base_template _ _) as [[goal pl] blocks].
  now rewrite (TextFacts.split_blank _ Hb).
Qed.

Local Open Scope list_scope.

(** What a returned profile tells: it is the profile of the scorer's axes,
    it was appended to the profiles, and under an identifier not in use
    before it is the profile found for that identifier. *)
Lemma submit_returned (new_id now : string) (q : QuestionnaireResponse)
    (db db1 : Api.Database) (p : UserProfile) :
  Api.submit_questionnaire new_id now q db = (Api.Returned p, db1) ->
  p = mkProfile new_id q (axes p) (determine_archetype (axes p)) now
  /\ db1 = Api.mkDatabase (Api.user_profiles db ++ [p]) (Api.user_plans db)
  /\ Scoring.calculate_profile_axes q = Ok (axes p)
  /\ (1 <= commitment_level q <= 10 ->
      Api.UserProfile_validates p = true)
  /\ (Api.find_profile new_id db = None ->
      Api.find_profile new_id db1 = Some p).
Proof.
  intros H.
  destruct (ApiFacts.submit_questionnaire_cases new_id now q db)
    as [(a & Ha & _ & E)|E]; rewrite E in H; [|discriminate].
  injection H as <- <-. cbn [axes].
  split; [reflexivity|]. split; [reflexivity|]. split; [exact Ha|]. split.
  - intros Hc. unfold Api.UserProfile_validates. cbn [questionnaire axes].
    pose proof (calculate_profile_axes_range _ _ Ha) as R.
    unfold Spec.axes_in_range in R.
    rewrite !andb_true_iff, !Z.leb_le, !ScoringFacts.in_unit_range_iff.
    tauto.
  - intros Hf. unfold Api.find_profile in *. cbn [Api.user_profiles].
    rewrite ApiFacts.find_app, Hf. cbn [find UserProfile_id id].
    now rewrite String.eqb_refl.
Qed.

(** X12. When POST /questionnaire returns a profile, under an identifier not
    yet in use, exactly that profile was stored: it carries the identifier,
    the questionnaire, the time stamp, the axes that the scorer gives the
    questionnaire and the archetype of these axes, and asking for the
    identifier afterwards returns the same profile.  Any other answer is 500
    and leaves the database as it was. *)
Theorem submit_then_get_profile (new_id now : string)
    (q : QuestionnaireResponse) (db : Api.Database) :
  1 <= commitment_level q <= 10 ->
  Api.find_profile new_id db = None ->
  (forall (p : UserProfile) (db1 : Api.Database),
      Api.submit_questionnaire new_id now q db = (Api.Returned p, db1) ->
      db1 = Api.mkDatabase (Api.user_profiles db ++ [p]) (Api.user_plans db)
      /\ id p = new_id /\ questionnaire p = q /\ created_at p = now
      /\ Scoring.calculate_profile_axes q = Ok (axes p)
      /\ archetype p = determine_archetype (axes p)
      /\ Api.get_profile new_id db1 = Api.Returned p)
  /\ (forall (status : Z) (detail : string) (db1 : Api.Database),
         Api.submit_questionnaire new_id now q db
         = (Api.HTTPException status detail, db1) ->
         status = 500 /\ db1 = db).
Proof.
  intros Hc Hf. split.
  - intros p db1 H.
    destruct (submit_returned new_id now q db db1 p H)
      as (Ep & Ed & Ha & Hv & Hg).
    split; [exact Ed|].
    rewrite Ep. cbn [id questionnaire created_at axes archetype].
    repeat split; trivial.
    unfold Api.get_profile. rewrite (Hg Hf), (Hv Hc). now rewrite <- Ep.
  - intros status detail db1 H.
    destruct (ApiFacts.submit_questionnaire_cases new_id now q db)
      as [(a & _ & _ & E)|E]; rewrite E in H; [discriminate|].
    injection H as <- _ <-. now split.
Qed.

Lemma submit_then_get_profile_witness :
  exists p : UserProfile,
    Api.submit_questionnaire "p1" "t1" Samples.test_questionnaire Api.empty
    = (Api.Returned p, Api.mkDatabase [p] [])
    /\ archetype p = determine_archetype (axes p)
    /\ Api.get_profile "p1" (Api.mkDatabase [p] []) = Api.Returned p.
Proof.
  eexists. split; [vm_compute; reflexivity|].
  refine ((fun H => conj (proj1 (proj2 (proj2 (proj2 (proj2 (proj2 H))))))
                      (proj2 (proj2 (proj2 (proj2 (proj2 (proj2 H)))))))
            (proj1 (submit_then_get_profile "p1" "t1"
                      Samples.test_questionnaire Api.empty _ _) _ _ _)).
  - simpl. lia.
  - reflexivity.
  - vm_compute. reflexivity.
Defined.

(** X13. After any run of requests from the empty database, an identifier
    that no questionnaire request of the run drew is unknown: the profile
    and the plan are answered 404, and asking for a plan stores nothing. *)
Theorem unknown_id_gives_404 (rs : list Api.Request) (pid new_id now : string) :
  Forall ApiRuns.wellformed rs ->
  ~ In pid (ApiRuns.submitted_ids rs) ->
  Api.get_profile pid (Api.run Api.empty rs)
  = Api.HTTPException 404 "Profile not found"
  /\ Api.generate_plan new_id now pid (Api.run Api.empty rs)
     = (Api.HTTPException 404 "Profile not found", Api.run Api.empty rs)
  /\ Api.get_plan pid (Api.run Api.empty rs)
     = Api.HTTPException 404 "Plan not found".
Proof.
  intros Hw Hn.
  assert (F : Api.find_profile pid (Api.run Api.empty rs) = None).
  { destruct (Api.find_profile pid (Api.run Api.empty rs)) as [p|] eqn:E;
      [|reflexivity].
    apply ApiFacts.find_profile_In in E as [Hin <-].
    apply ApiFacts.run_profile_ids in Hin as [[]|Hin]. contradiction. }
  unfold Api.get_profile, Api.generate_plan. rewrite F.
  split; [reflexivity|]. split; [reflexivity|].
  unfold Api.get_plan.
  destruct (Api.find_plan pid (Api.run Api.empty rs)) as [up|] eqn:E;
    [|reflexivity].
  apply ApiFacts.find_plan_In in E as [Hin <-].
  destruct (ApiFacts.run_consistent rs Api.empty Hw ApiFacts.empty_consistent)
    as [_ HU].
  destruct (HU up Hin) as (p & Hp & _). congruence.
Qed.

Lemma unknown_id_gives_404_witness :
  Api.get_profile "p2"
    (Api.run Api.empty
       [Api.PostQuestionnaire "p1" "t1" Samples.test_questionnaire;
        Api.PostPlan "u1" "t2" "p1"])
  = Api.HTTPException 404 "Profile not found".
Proof.
  refine (proj1 (unknown_id_gives_404 _ "p2" "u2" "t3" _ _)).
  - repeat constructor; simpl; lia.
  - simpl. intros [H|[]]. discriminate H.
Defined.

(** X14. A blank key habit change does not stop POST /questionnaire, but
    the profile it returns can never get a plan: every plan request for its
    identifier is answered 500 "Error generating plan" and stores nothing. *)
Theorem blank_habit_change_gives_500 (new_id now plan_id plan_now : string)
    (q : QuestionnaireResponse) (db db1 : Api.Database) (p : UserProfile) :
  1 <= commitment_level q <= 10 ->
  Text.blank (key_habit_change q) = true ->
  Api.find_profile new_id db = None ->
  Api.submit_questionnaire new_id now q db = (Api.Returned p, db1) ->
  Api.generate_plan plan_id plan_now new_id db1
  = (Api.HTTPException 500 "Error generating plan", db1).
Proof.
  intros Hc Hb Hf H.
  destruct (submit_returned new_id now q db db1 p H)
    as (Ep & _ & _ & Hv & Hg).
  unfold Api.generate_plan. rewrite (Hg Hf), (Hv Hc).
  rewrite (generate_plan_template_blank_habit_lemma p); [reflexivity|].
  rewrite Ep. exact Hb.
Qed.

Lemma blank_habit_change_gives_500_witness :
  exists p db1,
    Api.submit_questionnaire "p1" "t1"
      (with_key_habit_change Samples.test_questionnaire "  ") Api.empty
    = (Api.Returned p, db1)
    /\ Api.generate_plan "u1" "t2" "p1" db1
       = (Api.HTTPException 500 "Error generating plan", db1).
Proof.
  eexists. eexists. split; [vm_compute; reflexivity|].
  refine (blank_habit_change_gives_500 "p1" "t1" "u1" "t2"
            (with_key_habit_change Samples.test_questionnaire "  ")
            Api.empty _ _ _ _ _ _).
  - simpl. lia.
  - reflexivity.
  - reflexivity.
  - vm_compute. reflexivity.
Defined.



(** X16. Whatever requests are run from the empty database, the store stays
    consistent: every stored profile passes the checks of its models and
    holds the axes that the scorer gives its questionnaire and the archetype
    of these axes, so a profile request is answered with such a profile or
    with 404, never with 500; and every plan returned is the plan that
    synthesis gives the profile returned for the same identifier. *)
Theorem reachable_database_consistent (rs : list Api.Request) (pid : string) :
  Forall ApiRuns.wellformed rs ->
  (Api.get_profile pid (Api.run Api.empty rs)
   = Api.HTTPException 404 "Profile not found"
   \/ exists p,
       Api.get_profile pid (Api.run Api.empty rs) = Api.Returned p
       /\ id p = pid
       /\ Scoring.calculate_profile_axes (questionnaire p) = Ok (axes p)
       /\ archetype p = determine_archetype (axes p)
       /\ Spec.axes_in_range (axes p))
  /\ (forall up,
         Api.get_plan pid (Api.run Api.empty rs) = Api.Returned up ->
         UserPlanRecord.profile_id up = pid
         /\ exists p,
             Api.get_profile pid (Api.run Api.empty rs) = Api.Returned p
             /\ Plan.generate_plan_template p = Ok (UserPlanRecord.plan up)).
Proof.
  intros Hw.
  destruct (ApiFacts.run_consistent rs Api.empty Hw ApiFacts.empty_consistent)
    as [HP HU].
  set (db := Api.run Api.empty rs) in *.
  assert (G : forall p, Api.find_profile pid db = Some p ->
                        Api.get_profile pid db = Api.Returned p).
  { intros p F. unfold Api.get_profile. rewrite F.
    apply ApiFacts.find_profile_In in F as [Hin _].
    now rewrite (proj1 (HP p Hin)). }
  split.
  - destruct (Api.find_profile pid db) as [p|] eqn:F.
    + right. exists p. split; [now apply G|].
      apply ApiFacts.find_profile_In in F as [Hin Hid].
      destruct (HP p Hin) as (_ & Hc & Ha).
      repeat split; trivial.
      all: apply (calculate_profile_axes_range _ _ Hc).
    + left. unfold Api.get_profile. now rewrite F.
  - intros up Hup. unfold Api.get_plan in Hup.
    destruct (Api.find_plan pid db) as [up'|] eqn:F; [|discriminate].
    injection Hup as ->.
    apply ApiFacts.find_plan_In in F as [Hin Hid].
    split; [exact Hid|].
    destruct (HU up Hin) as (p & Hp & Hg). rewrite Hid in Hp.
    exists p. split; [now apply G|exact Hg].
Qed.

Lemma reachable_database_consistent_witness :
  exists p,
    Api.get_profile "p1"
      (Api.run Api.empty
         [Api.PostQuestionnaire "p1" "t1" Samples.test_questionnaire;
          Api.PostPlan "u1" "t2" "p1";
          Api.PostQuestionnaire "p1" "t3" Samples.scenario_C;
          Api.GetPlan "p1"])
    = Api.Returned p
    /\ archetype p = determine_archetype (axes p).
Proof.
  destruct (reachable_database_consistent
              [Api.PostQuestionnaire "p1" "t1" Samples.test_questionnaire;
               Api.PostPlan "u1" "t2" "p1";
               Api.PostQuestionnaire "p1" "t3" Samples.scenario_C;
               Api.GetPlan "p1"] "p1") as [[H|(p & Hp & _ & _ & Ha & _)] _].
  - repeat constructor; simpl; lia.
  - vm_compute in H. discriminate H.
  - exists p. split; assumption.
Defined.

(** X17. Nothing stored is ever changed or removed: a profile or a plan
    that a request returns for an identifier is returned again, unchanged,
    after any further requests, also when later documents carry the same
    identifier. *)
Theorem stored_answers_never_change (db : Api.Database)
    (rs : list Api.Request) (pid : string) :
  (forall p, Api.get_profile pid db = Api.Returned p ->
             Api.get_profile pid (Api.run db rs) = Api.Returned p)
  /\ (forall up, Api.get_plan pid db = Api.Returned up ->
                 Api.get_plan pid (Api.run db rs) = Api.Returned up).
Proof.
  destruct (ApiFacts.run_appends rs db) as (l & m & El & Em).
  split.
  - intros p H. unfold Api.get_profile in *.
    destruct (Api.find_profile pid db) as [p'|] eqn:F; [|discriminate].
    unfold Api.find_profile in *. rewrite El, ApiFacts.find_app, F.
    exact H.
  - intros up H. unfold Api.get_plan in *.
    destruct (Api.find_plan pid db) as [up'|] eqn:F; [|discriminate].
    unfold Api.find_plan in *. now rewrite Em, ApiFacts.find_app, F.
Qed.

Lemma stored_answers_never_change_witness :
  Api.get_profile "profile-1"
    (Api.run
       (Api.mkDatabase [Samples.stored_profile Samples.test_questionnaire] [])
       [Api.PostQuestionnaire "profile-1" "t3" Samples.scenario_C;
        Api.PostPlan "u1" "t4" "profile-1"])
  = Api.Returned (Samples.stored_profile Samples.test_questionnaire).
Proof.
  apply (proj1 (stored_answers_never_change _ _ "profile-1")).
  vm_compute. reflexivity.
Defined.

(** ** Worked scenarios: large durations *)

(** A routine of [10^400] minutes with a description: the questionnaire is
    structurally valid, the division overflows and the scorer raises; the
    route answers 500 and stores nothing.  Without a description the
    division is not carried out and axes are returned. *)
Example huge_duration_overflows :
  let q := mkQuestionnaire "" "" [] 1 1 NIGHT "stretching" (Some (10 ^ 400))
             ZERO GIVE_UP "" "" "" "walk" [] 1 in
  Spec.structurally_valid q
  /\ Scoring.calculate_profile_axes q = Raised OverflowError
  /\ Api.submit_questionnaire "p1" "t1" q Api.empty
     = (Api.HTTPException 500 "Error processing questionnaire", Api.empty)
  /\ exists a,
      Scoring.calculate_profile_axes (with_morning_routine q "  ") = Ok a.
Proof.
  split; [|split; [|split]].
  - unfold Spec.structurally_valid, Qle; simpl. lia.
  - vm_compute. reflexivity.
  - vm_compute. reflexivity.
  - eexists. vm_compute. reflexivity.
Qed.

(** The division overflows from [2^1025 - 2^971] on, and not below. *)
Example overflow_threshold :
  Scoring.int_true_divide (2 ^ 1025 - 2 ^ 971) 2 = Raised OverflowError
  /\ Scoring.int_true_divide (2 ^ 1025 - 2 ^ 971 - 1) 2
     = Ok (inject_Z (2 ^ 1025 - 2 ^ 971 - 1) / 2)%Q
  /\ Scoring.int_true_divide 30 2 = Ok (inject_Z 30 / 2)%Q.
Proof. repeat split; vm_compute; reflexivity. Qed.

(** A duration that fits the floats but not eight bytes is scored, and then
    refused by the database: the route answers 500 and stores nothing. *)
Example wide_duration_not_stored :
  let q := mkQuestionnaire "" "" [] 1 1 NIGHT "stretching" (Some (2 ^ 63))
             ZERO GIVE_UP "" "" "" "walk" [] 1 in
  (exists a, Scoring.calculate_profile_axes q = Ok a)
  /\ Api.submit_questionnaire "p1" "t1" q Api.empty
     = (Api.HTTPException 500 "Error processing questionnaire", Api.empty).
Proof.
  split; [eexists|]; vm_compute; reflexivity.
Qed.
